(** * Affinity configuration tree of hera: translation to the Argo wire model

    Shallow embedding of [src/hera/affinity.py] (the [get_spec] methods of
    the affinity node classes), of [src/hera/client.py] and of
    [src/hera/v1/workflow_service.py].

    Conventions of the embedding.
    - A Python value that may be [None] is an [option]; [None] is [None].
    - Each class is a module holding a record [t] with the attributes set
      by [__init__] and a function [get_spec] taking [self].
    - The [Argo*] classes are the model classes of the [argo_workflows]
      SDK.  An instance is a value [VModel c kwargs]; a constructor checks
      the keyword arguments it is called with against the properties the
      class declares and raises when they do not fit (module [Sdk]).
    - A Python exception is a value [Raise e] of the type [result]. *)

From Stdlib Require Import ZArith.
From stdpp Require Import base option list list_monad strings gmap.

Open Scope Z_scope.

(** ** Python runtime: exceptions, iteration, truth values *)

(** [MissingArguments names] is the [TypeError] of a call that lacks the
    required positional arguments [names] (its message also names the
    function called).  [ApiTypeError] is the SDK's exception for a value
    whose type is not the declared one. *)
Inductive exn : Set :=
| TypeError (msg : string)
| AttributeError (msg : string)
| MissingArguments (names : list string)
| ApiTypeError.

Inductive result (A : Type) : Type :=
| Ok (a : A)
| Raise (e : exn).
Arguments Ok {A} a.
Arguments Raise {A} e.

#[global] Instance result_ret : MRet result := λ A a, Ok a.
#[global] Instance result_bind : MBind result := λ A B f m,
  match m with
  | Ok a => f a
  | Raise e => Raise e
  end.

(** [x is not None] *)
Definition is_not_None {A : Type} (x : option A) : bool :=
  match x with
  | Some _ => true
  | None => false
  end.

(** Truth value of an attribute holding [None] or an instance of a class
    that defines neither [__bool__] nor [__len__]: every instance is true. *)
Definition truthy {A : Type} (x : option A) : bool :=
  match x with
  | Some _ => true
  | None => false
  end.

(** Truth value of an attribute holding [None] or a list: the empty list is
    false. *)
Definition truthy_list {A : Type} (x : option (list A)) : bool :=
  match x with
  | Some (_ :: _) => true
  | Some [] => false
  | None => false
  end.

(** [iter(x)]: a list is iterated in order, [None] is not iterable. *)
Definition iter {A : Type} (x : option (list A)) : result (list A) :=
  match x with
  | Some l => Ok l
  | None => Raise (TypeError "'NoneType' object is not iterable")
  end.

(** [[f(x) for x in xs]] where [xs] may be [None] and [f] may raise. *)
Definition comprehension {A B : Type} (f : A → result B)
    (xs : option (list A)) : result (list B) :=
  l ← iter xs; mapM f l.

(** [x.m()] where [x] may be [None]: [None] has no method [get_spec]. *)
Definition call {A B : Type} (x : option A) (m : A → result B) : result B :=
  match x with
  | Some a => m a
  | None => Raise (AttributeError "'NoneType' object has no attribute 'get_spec'")
  end.

(** ** The model classes of the SDK

    The classes of [argo_workflows.models] used by affinity.py are generated
    from the OpenAPI schema of the workflow API.  Each declares the type of
    its properties and which of them are required: the required ones are the
    positional parameters of [__init__], the others are keyword arguments.
    A value given for a property is checked against the declared type when
    the instance is built; [None] has none of the declared types. *)

Module Sdk.

Inductive class : Set :=
| Affinity
| LabelSelector
| LabelSelectorRequirement
| NodeAffinity
| NodeSelector
| NodeSelectorRequirement
| NodeSelectorTerm
| PodAffinity
| PodAffinityTerm
| PodAntiAffinity
| PreferredSchedulingTerm
| WeightedPodAffinityTerm.

#[global] Instance class_eq_dec : EqDecision class.
Proof. solve_decision. Defined.

(** The values handed to the SDK and the instances it builds. *)
#[local] Unset Elimination Schemes.
Inductive value : Type :=
| VNone
| VStr (s : string)
| VInt (n : Z)
| VList (l : list value)
| VModel (c : class) (kwargs : list (string * value)).
#[local] Set Elimination Schemes.

(** The declared type of a property. *)
Inductive ty : Set :=
| TStr
| TInt
| TList (t : ty)
| TModel (c : class).

Fixpoint valid (t : ty) (v : value) {struct v} : bool :=
  match v with
  | VNone => false
  | VStr _ => match t with TStr => true | _ => false end
  | VInt _ => match t with TInt => true | _ => false end
  | VList l =>
      match t with
      | TList t' => forallb (valid t') l
      | _ => false
      end
  | VModel c _ =>
      match t with
      | TModel c' => bool_decide (c = c')
      | _ => false
      end
  end.

(** The instance of [c] with the properties [kwargs], each given with its
    declared type, when every value has the type of its property. *)
Definition checked (c : class) (kwargs : list (string * ty * value))
    : result value :=
  if forallb (λ k, valid k.1.2 k.2) kwargs
  then Ok (VModel c ((λ k, (k.1.1, k.2)) <$> kwargs))
  else Raise ApiTypeError.

(** The Python value of an attribute holding [None] or a list of strings. *)
Definition strings (x : option (list string)) : value :=
  match x with
  | Some l => VList (VStr <$> l)
  | None => VNone
  end.

End Sdk.

Export Sdk (value, VNone, VStr, VInt, VList, VModel).

(** ** The constructor calls of affinity.py

    One function for each call [Argo...(k1=v1, ...)] that affinity.py
    makes, with the keyword arguments of that call as parameters. *)

Module ArgoNodeSelectorRequirement.
(** [key] and [operator] are required and the call gives neither. *)
Definition new (values : value) : result value :=
  Raise (MissingArguments ["key"; "operator"]).
End ArgoNodeSelectorRequirement.

Module ArgoNodeSelectorTerm.
Definition new (match_expressions match_fields : value) : result value :=
  Sdk.checked Sdk.NodeSelectorTerm
    [ ("match_expressions", Sdk.TList (Sdk.TModel Sdk.NodeSelectorRequirement),
       match_expressions);
      ("match_fields", Sdk.TList (Sdk.TModel Sdk.NodeSelectorRequirement),
       match_fields) ].
End ArgoNodeSelectorTerm.

Module ArgoNodeSelector.
Definition new (node_selector_terms : value) : result value :=
  Sdk.checked Sdk.NodeSelector
    [ ("node_selector_terms", Sdk.TList (Sdk.TModel Sdk.NodeSelectorTerm),
       node_selector_terms) ].
End ArgoNodeSelector.

Module ArgoPreferredSchedulingTerm.
Definition new (preference weight : value) : result value :=
  Sdk.checked Sdk.PreferredSchedulingTerm
    [ ("preference", Sdk.TModel Sdk.NodeSelectorTerm, preference);
      ("weight", Sdk.TInt, weight) ].
End ArgoPreferredSchedulingTerm.

Module ArgoLabelSelectorRequirement.
Definition new (key operator values : value) : result value :=
  Sdk.checked Sdk.LabelSelectorRequirement
    [ ("key", Sdk.TStr, key);
      ("operator", Sdk.TStr, operator);
      ("values", Sdk.TList Sdk.TStr, values) ].
End ArgoLabelSelectorRequirement.

Module ArgoLabelSelector.
Definition new (match_expressions : value) : result value :=
  Sdk.checked Sdk.LabelSelector
    [ ("match_expressions", Sdk.TList (Sdk.TModel Sdk.LabelSelectorRequirement),
       match_expressions) ].
End ArgoLabelSelector.

Module ArgoPodAffinityTerm.
Definition new (topology_key label_selector namespace_selector namespaces
    : value) : result value :=
  Sdk.checked Sdk.PodAffinityTerm
    [ ("topology_key", Sdk.TStr, topology_key);
      ("label_selector", Sdk.TModel Sdk.LabelSelector, label_selector);
      ("namespace_selector", Sdk.TModel Sdk.LabelSelector, namespace_selector);
      ("namespaces", Sdk.TList Sdk.TStr, namespaces) ].
End ArgoPodAffinityTerm.

Module ArgoWeightedPodAffinityTerm.
Definition new (pod_affinity_term weight : value) : result value :=
  Sdk.checked Sdk.WeightedPodAffinityTerm
    [ ("pod_affinity_term", Sdk.TModel Sdk.PodAffinityTerm, pod_affinity_term);
      ("weight", Sdk.TInt, weight) ].
End ArgoWeightedPodAffinityTerm.

Module ArgoPodAffinity.
Definition new (preferred_during_scheduling_ignored_during_execution
    required_during_scheduling_ignored_during_execution : value)
    : result value :=
  Sdk.checked Sdk.PodAffinity
    [ ("preferred_during_scheduling_ignored_during_execution",
       Sdk.TList (Sdk.TModel Sdk.WeightedPodAffinityTerm),
       preferred_during_scheduling_ignored_during_execution);
      ("required_during_scheduling_ignored_during_execution",
       Sdk.TList (Sdk.TModel Sdk.PodAffinityTerm),
       required_during_scheduling_ignored_during_execution) ].
End ArgoPodAffinity.

Module ArgoPodAntiAffinity.
Definition new (preferred_during_scheduling_ignored_during_execution
    required_during_scheduling_ignored_during_execution : value)
    : result value :=
  Sdk.checked Sdk.PodAntiAffinity
    [ ("preferred_during_scheduling_ignored_during_execution",
       Sdk.TList (Sdk.TModel Sdk.WeightedPodAffinityTerm),
       preferred_during_scheduling_ignored_during_execution);
      ("required_during_scheduling_ignored_during_execution",
       Sdk.TList (Sdk.TModel Sdk.PodAffinityTerm),
       required_during_scheduling_ignored_during_execution) ].
End ArgoPodAntiAffinity.

Module ArgoNodeAffinity.
Definition new (preferred_during_scheduling_ignored_during_execution
    required_during_scheduling_ignored_during_execution : value)
    : result value :=
  Sdk.checked Sdk.NodeAffinity
    [ ("preferred_during_scheduling_ignored_during_execution",
       Sdk.TList (Sdk.TModel Sdk.PreferredSchedulingTerm),
       preferred_during_scheduling_ignored_during_execution);
      ("required_during_scheduling_ignored_during_execution",
       Sdk.TModel Sdk.NodeSelector,
       required_during_scheduling_ignored_during_execution) ].
End ArgoNodeAffinity.

Module ArgoAffinity.
Definition new (pod_affinity pod_anti_affinity node_affinity : value)
    : result value :=
  Sdk.checked Sdk.Affinity
    [ ("pod_affinity", Sdk.TModel Sdk.PodAffinity, pod_affinity);
      ("pod_anti_affinity", Sdk.TModel Sdk.PodAntiAffinity, pod_anti_affinity);
      ("node_affinity", Sdk.TModel Sdk.NodeAffinity, node_affinity) ].
End ArgoAffinity.

(** ** The node classes of affinity.py

    [get_spec] returns [Ok VNone] for the [None] it returns, [Ok v] for an
    instance [v] of an SDK class, and [Raise e] when it raises. *)

Module NodeSelectorRequirement.
Record t : Type := mk { values : option (list string) }.

Definition get_spec (self : t) : result value :=
  if is_not_None (values self)
  then ArgoNodeSelectorRequirement.new (Sdk.strings (values self))
  else Ok VNone.
End NodeSelectorRequirement.

Module NodeSelectorTerm.
Record t : Type := mk {
  expressions : option (list NodeSelectorRequirement.t);
  fields : option (list NodeSelectorRequirement.t)
}.

Definition get_spec (self : t) : result value :=
  if is_not_None (expressions self) || is_not_None (fields self)
  then
    match_expressions ←
      comprehension (λ expression,
        NodeSelectorRequirement.get_spec expression) (expressions self);
    match_fields ←
      comprehension (λ field,
        NodeSelectorRequirement.get_spec field) (fields self);
    ArgoNodeSelectorTerm.new (VList match_expressions) (VList match_fields)
  else Ok VNone.
End NodeSelectorTerm.

Module PreferredSchedulingTerm.
Record t : Type := mk {
  node_selector_terms : list NodeSelectorTerm.t;
  weight : Z
}.

Definition get_spec (self : t) : result value :=
  terms ← mapM NodeSelectorTerm.get_spec (node_selector_terms self);
  preference ← ArgoNodeSelector.new (VList terms);
  ArgoPreferredSchedulingTerm.new preference (VInt (weight self)).
End PreferredSchedulingTerm.

Module LabelOperator.
Inductive t : Set := In | NotIn | Exists | DoesNotExist.

(** The [.value] of an enum member. *)
Definition value (op : t) : string :=
  match op with
  | In => "In"
  | NotIn => "NotIn"
  | Exists => "Exists"
  | DoesNotExist => "DoesNotExist"
  end.
End LabelOperator.

Module LabelSelectorRequirement.
Record t : Type := mk {
  key : string;
  operator : LabelOperator.t;
  values : option (list string)
}.

Definition get_spec (self : t) : result value :=
  ArgoLabelSelectorRequirement.new
    (VStr (key self))
    (VStr (LabelOperator.value (operator self)))
    (Sdk.strings (values self)).
End LabelSelectorRequirement.

Module LabelSelector.
Record t : Type := mk {
  match_expressions : option (list LabelSelectorRequirement.t);
  match_labels : option (gmap string string)
}.

Definition get_spec (self : t) : result value :=
  if is_not_None (match_expressions self) || is_not_None (match_labels self)
  then
    exprs ←
      comprehension (λ expression,
        LabelSelectorRequirement.get_spec expression)
        (match_expressions self);
    ArgoLabelSelector.new (VList exprs)
  else Ok VNone.
End LabelSelector.

Module PodAffinityTerm.
Record t : Type := mk {
  topology_key : string;
  label_selector : option LabelSelector.t;
  namespace_selector : option LabelSelector.t;
  namespaces : option (list string)
}.

Definition get_spec (self : t) : result value :=
  ls ← (if is_not_None (label_selector self)
        then call (label_selector self) LabelSelector.get_spec
        else Ok VNone);
  ns ← (if is_not_None (namespace_selector self)
        then call (namespace_selector self) LabelSelector.get_spec
        else Ok VNone);
  ArgoPodAffinityTerm.new (VStr (topology_key self)) ls ns
    (if is_not_None (namespaces self)
     then Sdk.strings (namespaces self)
     else VNone).
End PodAffinityTerm.

Module WeightedPodAffinityTerm.
Record t : Type := mk {
  pod_affinity_term : PodAffinityTerm.t;
  weight : Z
}.

Definition get_spec (self : t) : result value :=
  term ← PodAffinityTerm.get_spec (pod_affinity_term self);
  ArgoWeightedPodAffinityTerm.new term (VInt (weight self)).
End WeightedPodAffinityTerm.

Module PodAffinity.
Record t : Type := mk {
  preferred_during_scheduling_ignored_during_execution :
    option (list WeightedPodAffinityTerm.t);
  required_during_scheduling_ignored_during_execution :
    option (list PodAffinityTerm.t)
}.

Definition get_spec (self : t) : result value :=
  if is_not_None (preferred_during_scheduling_ignored_during_execution self)
     || is_not_None (required_during_scheduling_ignored_during_execution self)
  then
    preferred ←
      (if is_not_None (preferred_during_scheduling_ignored_during_execution self)
       then
         l ← comprehension WeightedPodAffinityTerm.get_spec
                (preferred_during_scheduling_ignored_during_execution self);
         Ok (VList l)
       else Ok VNone);
    required ←
      (if is_not_None (required_during_scheduling_ignored_during_execution self)
       then
         l ← comprehension PodAffinityTerm.get_spec
                (required_during_scheduling_ignored_during_execution self);
         Ok (VList l)
       else Ok VNone);
    ArgoPodAffinity.new preferred required
  else Ok VNone.
End PodAffinity.

Module PodAntiAffinity.
Record t : Type := mk {
  preferred_during_scheduling_ignored_during_execution :
    option (list WeightedPodAffinityTerm.t);
  required_during_scheduling_ignored_during_execution :
    option (list PodAffinityTerm.t)
}.

Definition get_spec (self : t) : result value :=
  if is_not_None (preferred_during_scheduling_ignored_during_execution self)
     || is_not_None (required_during_scheduling_ignored_during_execution self)
  then
    preferred ←
      (if is_not_None (preferred_during_scheduling_ignored_during_execution self)
       then
         l ← comprehension WeightedPodAffinityTerm.get_spec
                (preferred_during_scheduling_ignored_during_execution self);
         Ok (VList l)
       else Ok VNone);
    required ←
      (if is_not_None (required_during_scheduling_ignored_during_execution self)
       then
         l ← comprehension PodAffinityTerm.get_spec
                (required_during_scheduling_ignored_during_execution self);
         Ok (VList l)
       else Ok VNone);
    ArgoPodAntiAffinity.new preferred required
  else Ok VNone.
End PodAntiAffinity.

Module NodeAffinity.
Record t : Type := mk {
  preferred_during_scheduling_ignored_during_execution :
    option (list PreferredSchedulingTerm.t);
  required_during_scheduling_ignored_during_execution :
    option NodeSelectorTerm.t
}.

Definition get_spec (self : t) : result value :=
  if is_not_None (preferred_during_scheduling_ignored_during_execution self)
     || is_not_None (required_during_scheduling_ignored_during_execution self)
  then
    preferred ←
      (if truthy_list (preferred_during_scheduling_ignored_during_execution self)
       then
         l ← comprehension PreferredSchedulingTerm.get_spec
                (preferred_during_scheduling_ignored_during_execution self);
         Ok (VList l)
       else Ok VNone);
    required ←
      (if truthy (required_during_scheduling_ignored_during_execution self)
       then
         call (required_during_scheduling_ignored_during_execution self)
           NodeSelectorTerm.get_spec
       else Ok VNone);
    ArgoNodeAffinity.new preferred required
  else Ok VNone.
End NodeAffinity.

Module Affinity.
Record t : Type := mk {
  pod_affinity : option PodAffinity.t;
  pod_anti_affinity : option PodAntiAffinity.t;
  node_affinity : option NodeAffinity.t
}.

Definition get_spec (self : t) : result value :=
  if is_not_None (pod_affinity self) || is_not_None (pod_anti_affinity self)
     || is_not_None (node_affinity self)
  then
    pa ← (if truthy (pod_affinity self)
          then call (pod_affinity self) PodAffinity.get_spec
          else Ok VNone);
    paa ← (if truthy (pod_anti_affinity self)
           then call (pod_anti_affinity self) PodAntiAffinity.get_spec
           else Ok VNone);
    na ← (if truthy (node_affinity self)
          then call (node_affinity self) NodeAffinity.get_spec
          else Ok VNone);
    ArgoAffinity.new pa paa na
  else Ok VNone.
End Affinity.

(** ** client.py: the SDK client carrying the Bearer token *)

Module Client.
Section Sdk.
Context {Configuration : Type}.

(** [argo_workflows.api_client.ApiClient], as its keyword arguments. *)
Record ArgoApiClient : Type := mkArgoApiClient {
  configuration : Configuration;
  header_name : string;
  header_value : string
}.

Record t : Type := mk { _client : ArgoApiClient }.

(** [config] stands for the attribute [config.config] of the argument. *)
Definition __init__ (config : Configuration) (token : string) : t :=
  mk (mkArgoApiClient config "Authorization" ("Bearer " +:+ token)).

Definition api_client (self : t) : ArgoApiClient := _client self.
End Sdk.
Arguments ArgoApiClient : clear implicits.
Arguments t : clear implicits.
End Client.

(** ** v1/workflow_service.py *)

Module WorkflowService.
Section Sdk.
Context {Configuration Workflow Response Deleted : Type}.

(** [Config(domain).config] of [hera.v1.config]: the SDK configuration
    built for a domain, kept abstract. *)
Variable Config : string → Configuration.

(** [IoArgoprojWorkflowV1alpha1WorkflowCreateRequest(workflow=, namespace=)] *)
Record CreateRequest : Type := mkCreateRequest {
  workflow : Workflow;
  namespace : string
}.

(** [WorkflowServiceApi(api_client=)] of the SDK. *)
Record WorkflowServiceApi : Type := mkWorkflowServiceApi {
  api_client : Client.ArgoApiClient Configuration
}.

(** The two SDK methods used; the last argument is [_check_return_type].
    They perform the HTTP request and are left abstract. *)
Variable create_workflow :
  WorkflowServiceApi → string → CreateRequest → bool → Response.
Variable delete_workflow :
  WorkflowServiceApi → string → string → bool → Deleted.

Record t : Type := mk {
  _domain : string;
  _namespace : string;
  service : WorkflowServiceApi
}.

(** A parameter with a default value is an [option]: [None] when the caller
    does not pass it. *)
Definition __init__ (domain token : string) (namespace : option string) : t :=
  let namespace := default "default" namespace in
  let api_client := Client.api_client (Client.__init__ (Config domain) token) in
  mk domain namespace (mkWorkflowServiceApi api_client).

Definition submit (self : t) (workflow : Workflow)
    (namespace : option string) : Response :=
  let namespace := default "default" namespace in
  create_workflow (service self) namespace
    (mkCreateRequest workflow namespace) false.

Definition delete (self : t) (name : string) : Deleted :=
  delete_workflow (service self) (_namespace self) name false.

Definition get_workflow_link (self : t) (name : string) : string :=
  "https://" +:+ _domain self +:+ "/workflows/" +:+ _namespace self
    +:+ "/" +:+ name +:+ "?tab=workflow".
End Sdk.
End WorkflowService.


(** ** The node classes over a store of objects

    The same methods once more, this time with the objects in a store:
    an attribute holding a node holds its address, [__init__] allocates the
    object and every [self.x] in a method body is a read of the store at the
    moment it is evaluated.  A list is kept inline in the attribute that
    holds it.  The instances of the SDK are values: building one reads and
    writes no node. *)

Module Store.

Definition loc : Set := positive.

Inductive obj : Type :=
| NodeSelectorRequirement_obj (values : option (list string))
| NodeSelectorTerm_obj (expressions fields : option (list loc))
| PreferredSchedulingTerm_obj (node_selector_terms : list loc) (weight : Z)
| LabelSelectorRequirement_obj (key : string) (operator : LabelOperator.t)
    (values : option (list string))
| LabelSelector_obj (match_expressions : option (list loc))
    (match_labels : option (gmap string string))
| PodAffinityTerm_obj (topology_key : string)
    (label_selector namespace_selector : option loc)
    (namespaces : option (list string))
| WeightedPodAffinityTerm_obj (pod_affinity_term : loc) (weight : Z)
| PodAffinity_obj (preferred required : option (list loc))
| PodAntiAffinity_obj (preferred required : option (list loc))
| NodeAffinity_obj (preferred : option (list loc)) (required : option loc)
| Affinity_obj (pod_affinity pod_anti_affinity node_affinity : option loc).

Abbreviation heap := (gmap loc obj).

(** Computations that read and write the store and may raise. *)
Definition M (A : Type) : Type := heap → result A * heap.

#[global] Instance M_ret : MRet M := λ A a h, (Ok a, h).
#[global] Instance M_bind : MBind M := λ A B f m h,
  match m h with
  | (Ok a, h') => f a h'
  | (Raise e, h') => (Raise e, h')
  end.

Definition raise {A : Type} (e : exn) : M A := λ h, (Raise e, h).

(** A call of an SDK constructor. *)
Definition sdk {A : Type} (r : result A) : M A := λ h, (r, h).

(** Allocation of a new object, at an address not in use. *)
Definition new (o : obj) : M loc := λ h,
  let l := fresh (dom h) in (Ok l, <[l := o]> h).

(** [self.x]: the attribute selected by [proj] of the object at [self].  An
    object of a class other than the one the attribute is declared with has
    no such attribute. *)
Definition getattr {A : Type} (proj : obj → option A) (self : loc) : M A := λ h,
  match h !! self with
  | Some o =>
      match proj o with
      | Some a => (Ok a, h)
      | None => (Raise (AttributeError "object has no such attribute"), h)
      end
  | None => (Raise (AttributeError "object has no such attribute"), h)
  end.

(** [a or b], evaluating [b] only when [a] is false. *)
Definition or_else (a b : M bool) : M bool :=
  x ← a; if (x : bool) then mret true else b.

(** [x is not None] for an attribute read. *)
Definition not_None {A : Type} (x : M (option A)) : M bool :=
  v ← x; mret (is_not_None v).

Definition iter {A : Type} (x : option (list A)) : M (list A) :=
  match x with
  | Some l => mret l
  | None => raise (TypeError "'NoneType' object is not iterable")
  end.

Definition comprehension {A B : Type} (f : A → M B)
    (xs : M (option (list A))) : M (list B) :=
  v ← xs; l ← iter v; mapM f l.

Definition call {A B : Type} (x : M (option A)) (m : A → M B) : M B :=
  v ← x;
  match v with
  | Some a => m a
  | None => raise (AttributeError "'NoneType' object has no attribute 'get_spec'")
  end.

Module NodeSelectorRequirement.
Definition __init__ (values : option (list string)) : M loc :=
  new (NodeSelectorRequirement_obj values).

Definition values : loc → M (option (list string)) :=
  getattr (λ o, match o with
                | NodeSelectorRequirement_obj v => Some v
                | _ => None
                end).

Definition get_spec (self : loc) : M value :=
  c ← not_None (values self);
  if (c : bool)
  then v ← values self; sdk (ArgoNodeSelectorRequirement.new (Sdk.strings v))
  else mret VNone.
End NodeSelectorRequirement.

Module NodeSelectorTerm.
Definition __init__ (expressions fields : option (list loc)) : M loc :=
  new (NodeSelectorTerm_obj expressions fields).

Definition expressions : loc → M (option (list loc)) :=
  getattr (λ o, match o with NodeSelectorTerm_obj e _ => Some e | _ => None end).
Definition fields : loc → M (option (list loc)) :=
  getattr (λ o, match o with NodeSelectorTerm_obj _ f => Some f | _ => None end).

Definition get_spec (self : loc) : M value :=
  c ← or_else (not_None (expressions self)) (not_None (fields self));
  if (c : bool)
  then
    match_expressions ←
      comprehension NodeSelectorRequirement.get_spec (expressions self);
    match_fields ←
      comprehension NodeSelectorRequirement.get_spec (fields self);
    sdk (ArgoNodeSelectorTerm.new (VList match_expressions) (VList match_fields))
  else mret VNone.
End NodeSelectorTerm.

Module PreferredSchedulingTerm.
Definition __init__ (node_selector_terms : list loc) (weight : Z) : M loc :=
  new (PreferredSchedulingTerm_obj node_selector_terms weight).

Definition node_selector_terms : loc → M (list loc) :=
  getattr (λ o, match o with
                | PreferredSchedulingTerm_obj t _ => Some t
                | _ => None
                end).
Definition weight : loc → M Z :=
  getattr (λ o, match o with
                | PreferredSchedulingTerm_obj _ w => Some w
                | _ => None
                end).

Definition get_spec (self : loc) : M value :=
  l ← node_selector_terms self;
  terms ← mapM NodeSelectorTerm.get_spec l;
  preference ← sdk (ArgoNodeSelector.new (VList terms));
  w ← weight self;
  sdk (ArgoPreferredSchedulingTerm.new preference (VInt w)).
End PreferredSchedulingTerm.

Module LabelSelectorRequirement.
Definition __init__ (key : string) (operator : LabelOperator.t)
    (values : option (list string)) : M loc :=
  new (LabelSelectorRequirement_obj key operator values).

Definition key : loc → M string :=
  getattr (λ o, match o with
                | LabelSelectorRequirement_obj k _ _ => Some k
                | _ => None
                end).
Definition operator : loc → M LabelOperator.t :=
  getattr (λ o, match o with
                | LabelSelectorRequirement_obj _ op _ => Some op
                | _ => None
                end).
Definition values : loc → M (option (list string)) :=
  getattr (λ o, match o with
                | LabelSelectorRequirement_obj _ _ v => Some v
                | _ => None
                end).

Definition get_spec (self : loc) : M value :=
  k ← key self;
  op ← operator self;
  v ← values self;
  sdk (ArgoLabelSelectorRequirement.new
         (VStr k) (VStr (LabelOperator.value op)) (Sdk.strings v)).
End LabelSelectorRequirement.

Module LabelSelector.
Definition __init__ (match_expressions : option (list loc))
    (match_labels : option (gmap string string)) : M loc :=
  new (LabelSelector_obj match_expressions match_labels).

Definition match_expressions : loc → M (option (list loc)) :=
  getattr (λ o, match o with LabelSelector_obj e _ => Some e | _ => None end).
Definition match_labels : loc → M (option (gmap string string)) :=
  getattr (λ o, match o with LabelSelector_obj _ m => Some m | _ => None end).

Definition get_spec (self : loc) : M value :=
  c ← or_else (not_None (match_expressions self)) (not_None (match_labels self));
  if (c : bool)
  then
    exprs ← comprehension LabelSelectorRequirement.get_spec (match_expressions self);
    sdk (ArgoLabelSelector.new (VList exprs))
  else mret VNone.
End LabelSelector.

Module PodAffinityTerm.
Definition __init__ (topology_key : string)
    (label_selector namespace_selector : option loc)
    (namespaces : option (list string)) : M loc :=
  new (PodAffinityTerm_obj topology_key label_selector namespace_selector
         namespaces).

Definition topology_key : loc → M string :=
  getattr (λ o, match o with
                | PodAffinityTerm_obj k _ _ _ => Some k
                | _ => None
                end).
Definition label_selector : loc → M (option loc) :=
  getattr (λ o, match o with
                | PodAffinityTerm_obj _ s _ _ => Some s
                | _ => None
                end).
Definition namespace_selector : loc → M (option loc) :=
  getattr (λ o, match o with
                | PodAffinityTerm_obj _ _ s _ => Some s
                | _ => None
                end).
Definition namespaces : loc → M (option (list string)) :=
  getattr (λ o, match o with
                | PodAffinityTerm_obj _ _ _ n => Some n
                | _ => None
                end).

Definition get_spec (self : loc) : M value :=
  k ← topology_key self;
  ls ← (c ← not_None (label_selector self);
        if (c : bool)
        then call (label_selector self) LabelSelector.get_spec
        else mret VNone);
  ns ← (c ← not_None (namespace_selector self);
        if (c : bool)
        then call (namespace_selector self) LabelSelector.get_spec
        else mret VNone);
  n ← (c ← not_None (namespaces self);
       if (c : bool)
       then v ← namespaces self; mret (Sdk.strings v)
       else mret VNone);
  sdk (ArgoPodAffinityTerm.new (VStr k) ls ns n).
End PodAffinityTerm.

Module WeightedPodAffinityTerm.
Definition __init__ (pod_affinity_term : loc) (weight : Z) : M loc :=
  new (WeightedPodAffinityTerm_obj pod_affinity_term weight).

Definition pod_affinity_term : loc → M loc :=
  getattr (λ o, match o with
                | WeightedPodAffinityTerm_obj t _ => Some t
                | _ => None
                end).
Definition weight : loc → M Z :=
  getattr (λ o, match o with
                | WeightedPodAffinityTerm_obj _ w => Some w
                | _ => None
                end).

Definition get_spec (self : loc) : M value :=
  t ← pod_affinity_term self;
  term ← PodAffinityTerm.get_spec t;
  w ← weight self;
  sdk (ArgoWeightedPodAffinityTerm.new term (VInt w)).
End WeightedPodAffinityTerm.

Module PodAffinity.
Definition __init__ (preferred_during_scheduling_ignored_during_execution
    required_during_scheduling_ignored_during_execution : option (list loc))
    : M loc :=
  new (PodAffinity_obj preferred_during_scheduling_ignored_during_execution
         required_during_scheduling_ignored_during_execution).

Definition preferred_during_scheduling_ignored_during_execution
    : loc → M (option (list loc)) :=
  getattr (λ o, match o with PodAffinity_obj p _ => Some p | _ => None end).
Definition required_during_scheduling_ignored_during_execution
    : loc → M (option (list loc)) :=
  getattr (λ o, match o with PodAffinity_obj _ r => Some r | _ => None end).

Definition get_spec (self : loc) : M value :=
  c ← or_else
        (not_None (preferred_during_scheduling_ignored_during_execution self))
        (not_None (required_during_scheduling_ignored_during_execution self));
  if (c : bool)
  then
    preferred ←
      (c ← not_None (preferred_during_scheduling_ignored_during_execution self);
       if (c : bool)
       then
         l ← comprehension WeightedPodAffinityTerm.get_spec
                (preferred_during_scheduling_ignored_during_execution self);
         mret (VList l)
       else mret VNone);
    required ←
      (c ← not_None (required_during_scheduling_ignored_during_execution self);
       if (c : bool)
       then
         l ← comprehension PodAffinityTerm.get_spec
                (required_during_scheduling_ignored_during_execution self);
         mret (VList l)
       else mret VNone);
    sdk (ArgoPodAffinity.new preferred required)
  else mret VNone.
End PodAffinity.

Module PodAntiAffinity.
Definition __init__ (preferred_during_scheduling_ignored_during_execution
    required_during_scheduling_ignored_during_execution : option (list loc))
    : M loc :=
  new (PodAntiAffinity_obj preferred_during_scheduling_ignored_during_execution
         required_during_scheduling_ignored_during_execution).

Definition preferred_during_scheduling_ignored_during_execution
    : loc → M (option (list loc)) :=
  getattr (λ o, match o with PodAntiAffinity_obj p _ => Some p | _ => None end).
Definition required_during_scheduling_ignored_during_execution
    : loc → M (option (list loc)) :=
  getattr (λ o, match o with PodAntiAffinity_obj _ r => Some r | _ => None end).

Definition get_spec (self : loc) : M value :=
  c ← or_else
        (not_None (preferred_during_scheduling_ignored_during_execution self))
        (not_None (required_during_scheduling_ignored_during_execution self));
  if (c : bool)
  then
    preferred ←
      (c ← not_None (preferred_during_scheduling_ignored_during_execution self);
       if (c : bool)
       then
         l ← comprehension WeightedPodAffinityTerm.get_spec
                (preferred_during_scheduling_ignored_during_execution self);
         mret (VList l)
       else mret VNone);
    required ←
      (c ← not_None (required_during_scheduling_ignored_during_execution self);
       if (c : bool)
       then
         l ← comprehension PodAffinityTerm.get_spec
                (required_during_scheduling_ignored_during_execution self);
         mret (VList l)
       else mret VNone);
    sdk (ArgoPodAntiAffinity.new preferred required)
  else mret VNone.
End PodAntiAffinity.

Module NodeAffinity.
Definition __init__ (preferred_during_scheduling_ignored_during_execution
    : option (list loc))
    (required_during_scheduling_ignored_during_execution : option loc)
    : M loc :=
  new (NodeAffinity_obj preferred_during_scheduling_ignored_during_execution
         required_during_scheduling_ignored_during_execution).

Definition preferred_during_scheduling_ignored_during_execution
    : loc → M (option (list loc)) :=
  getattr (λ o, match o with NodeAffinity_obj p _ => Some p | _ => None end).
Definition required_during_scheduling_ignored_during_execution
    : loc → M (option loc) :=
  getattr (λ o, match o with NodeAffinity_obj _ r => Some r | _ => None end).

Definition get_spec (self : loc) : M value :=
  c ← or_else
        (not_None (preferred_during_scheduling_ignored_during_execution self))
        (not_None (required_during_scheduling_ignored_during_execution self));
  if (c : bool)
  then
    preferred ←
      (p ← preferred_during_scheduling_ignored_during_execution self;
       if truthy_list p
       then
         l ← comprehension PreferredSchedulingTerm.get_spec
                (preferred_during_scheduling_ignored_during_execution self);
         mret (VList l)
       else mret VNone);
    required ←
      (r ← required_during_scheduling_ignored_during_execution self;
       if truthy r
       then call (required_during_scheduling_ignored_during_execution self)
              NodeSelectorTerm.get_spec
       else mret VNone);
    sdk (ArgoNodeAffinity.new preferred required)
  else mret VNone.
End NodeAffinity.

Module Affinity.
Definition __init__ (pod_affinity pod_anti_affinity node_affinity : option loc)
    : M loc :=
  new (Affinity_obj pod_affinity pod_anti_affinity node_affinity).

Definition pod_affinity : loc → M (option loc) :=
  getattr (λ o, match o with Affinity_obj a _ _ => Some a | _ => None end).
Definition pod_anti_affinity : loc → M (option loc) :=
  getattr (λ o, match o with Affinity_obj _ a _ => Some a | _ => None end).
Definition node_affinity : loc → M (option loc) :=
  getattr (λ o, match o with Affinity_obj _ _ a => Some a | _ => None end).

Definition get_spec (self : loc) : M value :=
  c ← or_else
        (or_else (not_None (pod_affinity self))
           (not_None (pod_anti_affinity self)))
        (not_None (node_affinity self));
  if (c : bool)
  then
    pa ← (x ← pod_affinity self;
          if truthy x
          then call (pod_affinity self) PodAffinity.get_spec
          else mret VNone);
    paa ← (x ← pod_anti_affinity self;
           if truthy x
           then call (pod_anti_affinity self) PodAntiAffinity.get_spec
           else mret VNone);
    na ← (x ← node_affinity self;
          if truthy x
          then call (node_affinity self) NodeAffinity.get_spec
          else mret VNone);
    sdk (ArgoAffinity.new pa paa na)
  else mret VNone.
End Affinity.

(** The outcomes of [n] successive runs of [m], and the store they leave. *)
Fixpoint outcomes {A : Type} (n : nat) (m : M A) (h : heap)
    : list (result A) * heap :=
  match n with
  | O => ([], h)
  | S n' =>
      let (r, h') := m h in
      let (rs, h'') := outcomes n' m h' in
      (r :: rs, h'')
  end.

End Store.

(** ** The tree of nodes held by a store

    [Abstraction.affinity h l] is the tree of records that the store [h]
    holds at the address [l], when every address reached from [l] holds an
    object of the class its attribute is declared with. *)

Module Abstraction.

Definition opt {A : Type} (f : Store.loc → option A) (x : option Store.loc)
    : option (option A) :=
  match x with
  | Some l => Some <$> f l
  | None => Some None
  end.

Definition opt_list {A : Type} (f : Store.loc → option A)
    (x : option (list Store.loc)) : option (option (list A)) :=
  match x with
  | Some ls => Some <$> mapM f ls
  | None => Some None
  end.

Definition node_selector_requirement (h : Store.heap) (l : Store.loc)
    : option NodeSelectorRequirement.t :=
  match h !! l with
  | Some (Store.NodeSelectorRequirement_obj v) =>
      Some (NodeSelectorRequirement.mk v)
  | _ => None
  end.

Definition node_selector_term (h : Store.heap) (l : Store.loc)
    : option NodeSelectorTerm.t :=
  match h !! l with
  | Some (Store.NodeSelectorTerm_obj es fs) =>
      es' ← opt_list (node_selector_requirement h) es;
      fs' ← opt_list (node_selector_requirement h) fs;
      Some (NodeSelectorTerm.mk es' fs')
  | _ => None
  end.

Definition preferred_scheduling_term (h : Store.heap) (l : Store.loc)
    : option PreferredSchedulingTerm.t :=
  match h !! l with
  | Some (Store.PreferredSchedulingTerm_obj ts w) =>
      ts' ← mapM (node_selector_term h) ts;
      Some (PreferredSchedulingTerm.mk ts' w)
  | _ => None
  end.

Definition label_selector_requirement (h : Store.heap) (l : Store.loc)
    : option LabelSelectorRequirement.t :=
  match h !! l with
  | Some (Store.LabelSelectorRequirement_obj k op v) =>
      Some (LabelSelectorRequirement.mk k op v)
  | _ => None
  end.

Definition label_selector (h : Store.heap) (l : Store.loc)
    : option LabelSelector.t :=
  match h !! l with
  | Some (Store.LabelSelector_obj es ml) =>
      es' ← opt_list (label_selector_requirement h) es;
      Some (LabelSelector.mk es' ml)
  | _ => None
  end.

Definition pod_affinity_term (h : Store.heap) (l : Store.loc)
    : option PodAffinityTerm.t :=
  match h !! l with
  | Some (Store.PodAffinityTerm_obj k ls ns n) =>
      ls' ← opt (label_selector h) ls;
      ns' ← opt (label_selector h) ns;
      Some (PodAffinityTerm.mk k ls' ns' n)
  | _ => None
  end.

Definition weighted_pod_affinity_term (h : Store.heap) (l : Store.loc)
    : option WeightedPodAffinityTerm.t :=
  match h !! l with
  | Some (Store.WeightedPodAffinityTerm_obj t w) =>
      t' ← pod_affinity_term h t;
      Some (WeightedPodAffinityTerm.mk t' w)
  | _ => None
  end.

Definition pod_affinity (h : Store.heap) (l : Store.loc)
    : option PodAffinity.t :=
  match h !! l with
  | Some (Store.PodAffinity_obj p r) =>
      p' ← opt_list (weighted_pod_affinity_term h) p;
      r' ← opt_list (pod_affinity_term h) r;
      Some (PodAffinity.mk p' r')
  | _ => None
  end.

Definition pod_anti_affinity (h : Store.heap) (l : Store.loc)
    : option PodAntiAffinity.t :=
  match h !! l with
  | Some (Store.PodAntiAffinity_obj p r) =>
      p' ← opt_list (weighted_pod_affinity_term h) p;
      r' ← opt_list (pod_affinity_term h) r;
      Some (PodAntiAffinity.mk p' r')
  | _ => None
  end.

Definition node_affinity (h : Store.heap) (l : Store.loc)
    : option NodeAffinity.t :=
  match h !! l with
  | Some (Store.NodeAffinity_obj p r) =>
      p' ← opt_list (preferred_scheduling_term h) p;
      r' ← opt (node_selector_term h) r;
      Some (NodeAffinity.mk p' r')
  | _ => None
  end.

Definition affinity (h : Store.heap) (l : Store.loc) : option Affinity.t :=
  match h !! l with
  | Some (Store.Affinity_obj pa paa na) =>
      pa' ← opt (pod_affinity h) pa;
      paa' ← opt (pod_anti_affinity h) paa;
      na' ← opt (node_affinity h) na;
      Some (Affinity.mk pa' paa' na')
  | _ => None
  end.

End Abstraction.

(** ** Construction of a tree in the store

    [Build.affinity t] is the evaluation of the expression that constructs
    [t]: the arguments of a constructor are evaluated from left to right,
    the elements of a list in order, then [__init__] allocates the node. *)

Module Build.

Definition opt {A : Type} (b : A → Store.M Store.loc) (x : option A)
    : Store.M (option Store.loc) :=
  match x with
  | Some a => l ← b a; mret (Some l)
  | None => mret None
  end.

Definition opt_list {A : Type} (b : A → Store.M Store.loc)
    (x : option (list A)) : Store.M (option (list Store.loc)) :=
  match x with
  | Some ts => ls ← mapM b ts; mret (Some ls)
  | None => mret None
  end.

Definition node_selector_requirement (t : NodeSelectorRequirement.t)
    : Store.M Store.loc :=
  Store.NodeSelectorRequirement.__init__ (NodeSelectorRequirement.values t).

Definition node_selector_term (t : NodeSelectorTerm.t) : Store.M Store.loc :=
  es ← opt_list node_selector_requirement (NodeSelectorTerm.expressions t);
  fs ← opt_list node_selector_requirement (NodeSelectorTerm.fields t);
  Store.NodeSelectorTerm.__init__ es fs.

Definition preferred_scheduling_term (t : PreferredSchedulingTerm.t)
    : Store.M Store.loc :=
  ts ← mapM node_selector_term (PreferredSchedulingTerm.node_selector_terms t);
  Store.PreferredSchedulingTerm.__init__ ts (PreferredSchedulingTerm.weight t).

Definition label_selector_requirement (t : LabelSelectorRequirement.t)
    : Store.M Store.loc :=
  Store.LabelSelectorRequirement.__init__ (LabelSelectorRequirement.key t)
    (LabelSelectorRequirement.operator t) (LabelSelectorRequirement.values t).

Definition label_selector (t : LabelSelector.t) : Store.M Store.loc :=
  es ← opt_list label_selector_requirement (LabelSelector.match_expressions t);
  Store.LabelSelector.__init__ es (LabelSelector.match_labels t).

Definition pod_affinity_term (t : PodAffinityTerm.t) : Store.M Store.loc :=
  ls ← opt label_selector (PodAffinityTerm.label_selector t);
  ns ← opt label_selector (PodAffinityTerm.namespace_selector t);
  Store.PodAffinityTerm.__init__ (PodAffinityTerm.topology_key t) ls ns
    (PodAffinityTerm.namespaces t).

Definition weighted_pod_affinity_term (t : WeightedPodAffinityTerm.t)
    : Store.M Store.loc :=
  p ← pod_affinity_term (WeightedPodAffinityTerm.pod_affinity_term t);
  Store.WeightedPodAffinityTerm.__init__ p (WeightedPodAffinityTerm.weight t).

Definition pod_affinity (t : PodAffinity.t) : Store.M Store.loc :=
  p ← opt_list weighted_pod_affinity_term
         (PodAffinity.preferred_during_scheduling_ignored_during_execution t);
  r ← opt_list pod_affinity_term
         (PodAffinity.required_during_scheduling_ignored_during_execution t);
  Store.PodAffinity.__init__ p r.

Definition pod_anti_affinity (t : PodAntiAffinity.t) : Store.M Store.loc :=
  p ← opt_list weighted_pod_affinity_term
         (PodAntiAffinity.preferred_during_scheduling_ignored_during_execution t);
  r ← opt_list pod_affinity_term
         (PodAntiAffinity.required_during_scheduling_ignored_during_execution t);
  Store.PodAntiAffinity.__init__ p r.

Definition node_affinity (t : NodeAffinity.t) : Store.M Store.loc :=
  p ← opt_list preferred_scheduling_term
         (NodeAffinity.preferred_during_scheduling_ignored_during_execution t);
  r ← opt node_selector_term
         (NodeAffinity.required_during_scheduling_ignored_during_execution t);
  Store.NodeAffinity.__init__ p r.

Definition affinity (t : Affinity.t) : Store.M Store.loc :=
  pa ← opt pod_affinity (Affinity.pod_affinity t);
  paa ← opt pod_anti_affinity (Affinity.pod_anti_affinity t);
  na ← opt node_affinity (Affinity.node_affinity t);
  Store.Affinity.__init__ pa paa na.

End Build.

(** * Properties *)

(** ** Values used in the statements *)

Definition not_iterable : exn :=
  TypeError "'NoneType' object is not iterable".

Definition zone_a : NodeSelectorRequirement.t :=
  NodeSelectorRequirement.mk (Some ["zone-a"]).

(** An [Affinity] whose three categories are present, each built with no
    argument. *)
Definition hollow_affinity : Affinity.t :=
  Affinity.mk (Some (PodAffinity.mk None None))
    (Some (PodAntiAffinity.mk None None))
    (Some (NodeAffinity.mk None None)).

(** A term with two empty lists, and the instance built for it. *)
Definition empty_term : NodeSelectorTerm.t :=
  NodeSelectorTerm.mk (Some []) (Some []).

Definition empty_term_spec : value :=
  VModel Sdk.NodeSelectorTerm
    [("match_expressions", VList []); ("match_fields", VList [])].

(** The construction, in the store, of an [Affinity] around a node affinity
    whose required term has the one expression [zone_a] and an empty list
    of fields. *)
Definition construct_zone_a : Store.M Store.loc :=
  e ← Store.NodeSelectorRequirement.__init__ (Some ["zone-a"]);
  t ← Store.NodeSelectorTerm.__init__ (Some [e]) (Some []);
  na ← Store.NodeAffinity.__init__ None (Some t);
  Store.Affinity.__init__ None None (Some na).

Definition zone_a_affinity : Affinity.t :=
  Affinity.mk None None
    (Some (NodeAffinity.mk None
             (Some (NodeSelectorTerm.mk (Some [zone_a]) (Some []))))).

(** A label requirement with values, a selector holding it, and a pod
    affinity term with every optional attribute given. *)
Definition app_x : LabelSelectorRequirement.t :=
  LabelSelectorRequirement.mk "app" LabelOperator.NotIn (Some ["x"]).

Definition app_x_spec : value :=
  VModel Sdk.LabelSelectorRequirement
    [("key", VStr "app"); ("operator", VStr "NotIn");
     ("values", VList [VStr "x"])].

Definition app_x_selector : LabelSelector.t :=
  LabelSelector.mk (Some [app_x]) None.

Definition app_x_selector_spec : value :=
  VModel Sdk.LabelSelector [("match_expressions", VList [app_x_spec])].

Definition full_term : PodAffinityTerm.t :=
  PodAffinityTerm.mk "kubernetes.io/hostname" (Some app_x_selector)
    (Some app_x_selector) (Some ["default"]).

Definition full_term_spec : value :=
  VModel Sdk.PodAffinityTerm
    [("topology_key", VStr "kubernetes.io/hostname");
     ("label_selector", app_x_selector_spec);
     ("namespace_selector", app_x_selector_spec);
     ("namespaces", VList [VStr "default"])].

Definition full_pod_affinity : PodAffinity.t :=
  PodAffinity.mk (Some [WeightedPodAffinityTerm.mk full_term 50])
    (Some [full_term]).

Definition full_weighted_term_spec : value :=
  VModel Sdk.WeightedPodAffinityTerm
    [("pod_affinity_term", full_term_spec); ("weight", VInt 50)].

Definition full_pod_affinity_spec : value :=
  VModel Sdk.PodAffinity
    [("preferred_during_scheduling_ignored_during_execution",
      VList [full_weighted_term_spec]);
     ("required_during_scheduling_ignored_during_execution",
      VList [full_term_spec])].

(** ** Notions used in the statements *)

Definition is_Ok {A : Type} (r : result A) : bool :=
  match r with
  | Ok _ => true
  | Raise _ => false
  end.

(** The exceptions of a materialization: the iteration over [None], the
    call of [ArgoNodeSelectorRequirement] without its key and operator, and
    the argument that an SDK constructor rejects. *)
Definition raises_only {A : Type} (r : result A) : Prop :=
  ∀ e, r = Raise e →
       e = not_iterable ∨ e = MissingArguments ["key"; "operator"] ∨
       e = ApiTypeError.

(** The [ArgoPodAntiAffinity] with the properties of an [ArgoPodAffinity]. *)
Definition anti (v : value) : value :=
  match v with
  | VModel Sdk.PodAffinity kwargs => VModel Sdk.PodAntiAffinity kwargs
  | _ => v
  end.

(** A computation that leaves every store as it finds it. *)
Definition reads {A : Type} (m : Store.M A) : Prop := ∀ h, (m h).2 = h.

(** In the store [h], [m] returns [r] and leaves [h] as it is. *)
Definition refines {A : Type} (m : Store.M A) (r : result A)
    (h : Store.heap) : Prop :=
  m h = (r, h).

(** An abstraction that keeps its value when objects are added. *)
Definition stable {A : Type} (abs : Store.heap → Store.loc → option A) : Prop :=
  ∀ h h' l t, h ⊆ h' → abs h l = Some t → abs h' l = Some t.

(** [b t] returns, keeps the objects of the store it starts from, and leaves
    a store that holds [t] at what it returns. *)
Definition constructs {A B : Type} (b : A → Store.M B)
    (abs : Store.heap → B → option A) : Prop :=
  ∀ t h, ∃ l h', b t h = (Ok l, h') ∧ h ⊆ h' ∧ abs h' l = Some t.

(** ** The SDK constructors *)

Lemma bind_Ok_inv {A B : Type} (m : result A) (f : A → result B) (b : B) :
  m ≫= f = Ok b → ∃ a, m = Ok a ∧ f a = Ok b.
Proof. destruct m as [a|e]; simpl; [eauto | discriminate]. Qed.

Lemma mapM_Ok_Forall2 {A B : Type} (f : A → result B) l k :
  mapM f l = Ok k ↔ Forall2 (λ x y, f x = Ok y) l k.
Proof.
  split.
  - revert k. induction l as [|x l IH]; intros k; cbn [mapM].
    + intros [= <-]. constructor.
    + intros H. apply bind_Ok_inv in H as (y & Hy & H).
      apply bind_Ok_inv in H as (k' & Hk' & H). injection H as <-.
      constructor; auto.
  - induction 1 as [|x y l k Hxy _ IH]; cbn [mapM]; [reflexivity|].
    rewrite Hxy. simpl. rewrite IH. reflexivity.
Qed.

Lemma forallb_true_Forall {A : Type} (f : A → bool) (l : list A) :
  forallb f l = true → Forall (λ x, f x = true) l.
Proof.
  induction l as [|x l IH]; simpl; [constructor|].
  intros H. apply andb_true_iff in H as [Hx Hl]. constructor; auto.
Qed.

(** What a constructor returns is an instance of its class whose
    properties are the arguments, each of the declared type. *)
Lemma checked_Ok_inv c kwargs v :
  Sdk.checked c kwargs = Ok v →
  v = VModel c ((λ k, (k.1.1, k.2)) <$> kwargs) ∧
  Forall (λ k, Sdk.valid k.1.2 k.2 = true) kwargs.
Proof.
  unfold Sdk.checked.
  destruct (forallb _ kwargs) eqn:E; [|discriminate].
  intros [= <-]. split; [reflexivity|]. by apply forallb_true_Forall.
Qed.

Lemma checked_not_None c kwargs : Sdk.checked c kwargs ≠ Ok VNone.
Proof. intros H. by apply checked_Ok_inv in H as [? _]. Qed.

Lemma valid_strings (l : list string) :
  Sdk.valid (Sdk.TList Sdk.TStr) (VList (VStr <$> l)) = true.
Proof. simpl. induction l as [|s l IH]; simpl; [reflexivity | exact IH]. Qed.

Lemma valid_list_of_None t (l : list value) :
  Forall (λ v, v = VNone) l →
  Sdk.valid (Sdk.TList t) (VList l) = true → l = [].
Proof. intros Hl. destruct Hl as [|v l -> _]; [done | discriminate]. Qed.

(** ** What each [get_spec] can return *)

Lemma NodeSelectorRequirement_Ok_inv r v :
  NodeSelectorRequirement.get_spec r = Ok v →
  v = VNone ∧ NodeSelectorRequirement.values r = None.
Proof.
  destruct r as [[l|]]; unfold NodeSelectorRequirement.get_spec; simpl.
  - discriminate.
  - by intros [= <-].
Qed.

Lemma NodeSelectorRequirement_mapM_Ok es k :
  mapM NodeSelectorRequirement.get_spec es = Ok k →
  Forall (λ v, v = VNone) k ∧ length k = length es.
Proof.
  intros H. apply mapM_Ok_Forall2 in H.
  induction H as [|e v es k Hev _ [IH1 IH2]]; [done|].
  apply NodeSelectorRequirement_Ok_inv in Hev as [-> _].
  split; [by constructor | simpl; by rewrite IH2].
Qed.

Lemma NodeSelectorTerm_Ok_inv t v :
  NodeSelectorTerm.get_spec t = Ok v →
  (t = NodeSelectorTerm.mk None None ∧ v = VNone) ∨
  (t = empty_term ∧ v = empty_term_spec).
Proof.
  destruct t as [[es|] [fs|]];
    unfold NodeSelectorTerm.get_spec, comprehension; simpl; intros H.
  - apply bind_Ok_inv in H as (me & Hme & H).
    apply bind_Ok_inv in H as (mf & Hmf & H).
    apply NodeSelectorRequirement_mapM_Ok in Hme as [Ne Le].
    apply NodeSelectorRequirement_mapM_Ok in Hmf as [Nf Lf].
    unfold ArgoNodeSelectorTerm.new in H.
    apply checked_Ok_inv in H as [-> Hv].
    inversion Hv as [|? ? He Hv']; subst. inversion Hv' as [|? ? Hf _]; subst.
    simpl in He, Hf.
    apply (valid_list_of_None _ _ Ne) in He.
    apply (valid_list_of_None _ _ Nf) in Hf. subst me mf.
    destruct es, fs; try discriminate. by right.
  - apply bind_Ok_inv in H as (me & _ & H). discriminate.
  - discriminate.
  - injection H as <-. by left.
Qed.

Lemma PreferredSchedulingTerm_raises t :
  is_Ok (PreferredSchedulingTerm.get_spec t) = false.
Proof.
  unfold PreferredSchedulingTerm.get_spec.
  destruct (mapM _ _) as [terms|]; simpl; [|reflexivity].
  destruct (ArgoNodeSelector.new (VList terms)) as [p|] eqn:E; simpl;
    [|reflexivity].
  unfold ArgoNodeSelector.new in E. apply checked_Ok_inv in E as [-> _].
  reflexivity.
Qed.

Lemma NodeAffinity_Ok_inv a v :
  NodeAffinity.get_spec a = Ok v →
  v = VNone ∧
  NodeAffinity.preferred_during_scheduling_ignored_during_execution a = None ∧
  NodeAffinity.required_during_scheduling_ignored_during_execution a = None.
Proof.
  destruct a as [[[|t ts]|] [r|]];
    unfold NodeAffinity.get_spec, comprehension; simpl; intros H.
  - apply bind_Ok_inv in H as (x & _ & H). discriminate.
  - discriminate.
  - pose proof (PreferredSchedulingTerm_raises t) as Ht.
    destruct (PreferredSchedulingTerm.get_spec t); [discriminate|].
    discriminate.
  - pose proof (PreferredSchedulingTerm_raises t) as Ht.
    destruct (PreferredSchedulingTerm.get_spec t); [discriminate|].
    discriminate.
  - apply bind_Ok_inv in H as (x & _ & H). discriminate.
  - by injection H as <-.
Qed.

Lemma Affinity_Ok_inv a v :
  Affinity.get_spec a = Ok v →
  v = VNone ∧ Affinity.pod_affinity a = None ∧
  Affinity.pod_anti_affinity a = None ∧ Affinity.node_affinity a = None.
Proof.
  assert (∀ na x,
    (if truthy na then call na NodeAffinity.get_spec else Ok VNone) = Ok x →
    x = VNone) as Hna.
  { intros [na|] x; simpl; [|by intros [= <-]].
    intros H. by apply NodeAffinity_Ok_inv in H as [-> _]. }
  destruct a as [pa paa na]. unfold Affinity.get_spec. simpl.
  destruct (is_not_None pa || is_not_None paa || is_not_None na) eqn:G.
  - intros H. apply bind_Ok_inv in H as (x & _ & H).
    apply bind_Ok_inv in H as (y & _ & H).
    apply bind_Ok_inv in H as (z & Hz & H). apply Hna in Hz as ->.
    unfold ArgoAffinity.new in H. apply checked_Ok_inv in H as [_ Hv].
    inversion Hv as [|? ? _ Hv']; subst. inversion Hv' as [|? ? _ Hv'']; subst.
    inversion Hv'' as [|? ? Hz _]; subst. discriminate.
  - intros [= <-]. by destruct pa, paa, na.
Qed.

(** ** Absence *)

(** A computation whose last step is a constructor call is never absent. *)
Ltac never_absent H :=
  repeat (apply bind_Ok_inv in H as (? & _ & H));
  exfalso; exact (checked_not_None _ _ H).

Lemma NodeSelectorRequirement_absent (r : NodeSelectorRequirement.t) :
  NodeSelectorRequirement.get_spec r = Ok VNone ↔
  NodeSelectorRequirement.values r = None.
Proof.
  split.
  - intros H. by apply NodeSelectorRequirement_Ok_inv in H as [_ ?].
  - destruct r as [v]. simpl. by intros ->.
Qed.

Lemma NodeSelectorTerm_absent (t : NodeSelectorTerm.t) :
  NodeSelectorTerm.get_spec t = Ok VNone ↔
  NodeSelectorTerm.expressions t = None ∧ NodeSelectorTerm.fields t = None.
Proof.
  split.
  - intros H. apply NodeSelectorTerm_Ok_inv in H as [[-> _]|[_ H]];
      [done | discriminate].
  - destruct t as [es fs]. simpl. by intros [-> ->].
Qed.

Lemma LabelSelector_absent (s : LabelSelector.t) :
  LabelSelector.get_spec s = Ok VNone ↔
  LabelSelector.match_expressions s = None ∧
  LabelSelector.match_labels s = None.
Proof.
  destruct s as [es ml]. unfold LabelSelector.get_spec. simpl.
  destruct es, ml; cbn -[mbind];
    (split; [intros H; try never_absent H; auto | intros [? ?]; congruence]).
Qed.

Lemma PodAffinity_absent (a : PodAffinity.t) :
  PodAffinity.get_spec a = Ok VNone ↔
  PodAffinity.preferred_during_scheduling_ignored_during_execution a = None ∧
  PodAffinity.required_during_scheduling_ignored_during_execution a = None.
Proof.
  destruct a as [p r]. unfold PodAffinity.get_spec. simpl.
  destruct p, r; cbn -[mbind];
    (split; [intros H; try never_absent H; auto | intros [? ?]; congruence]).
Qed.

Lemma PodAntiAffinity_absent (a : PodAntiAffinity.t) :
  PodAntiAffinity.get_spec a = Ok VNone ↔
  PodAntiAffinity.preferred_during_scheduling_ignored_during_execution a = None ∧
  PodAntiAffinity.required_during_scheduling_ignored_during_execution a = None.
Proof.
  destruct a as [p r]. unfold PodAntiAffinity.get_spec. simpl.
  destruct p, r; cbn -[mbind];
    (split; [intros H; try never_absent H; auto | intros [? ?]; congruence]).
Qed.

Lemma NodeAffinity_absent (a : NodeAffinity.t) :
  NodeAffinity.get_spec a = Ok VNone ↔
  NodeAffinity.preferred_during_scheduling_ignored_during_execution a = None ∧
  NodeAffinity.required_during_scheduling_ignored_during_execution a = None.
Proof.
  split.
  - intros H. by apply NodeAffinity_Ok_inv in H as (_ & ? & ?).
  - destruct a as [p r]. simpl. by intros [-> ->].
Qed.

Lemma Affinity_absent (a : Affinity.t) :
  Affinity.get_spec a = Ok VNone ↔
  Affinity.pod_affinity a = None ∧ Affinity.pod_anti_affinity a = None ∧
  Affinity.node_affinity a = None.
Proof.
  split.
  - intros H. by apply Affinity_Ok_inv in H as (_ & ? & ? & ?).
  - destruct a as [pa paa na]. simpl. by intros (-> & -> & ->).
Qed.

(** ** Requirements with values *)

Lemma LabelSelectorRequirement_valued k op (v : list string) :
  LabelSelectorRequirement.get_spec (LabelSelectorRequirement.mk k op (Some v))
  = Ok (VModel Sdk.LabelSelectorRequirement
          [("key", VStr k); ("operator", VStr (LabelOperator.value op));
           ("values", VList (VStr <$> v))]).
Proof.
  unfold LabelSelectorRequirement.get_spec, ArgoLabelSelectorRequirement.new,
    Sdk.checked.
  cbn [forallb fst snd LabelSelectorRequirement.key
         LabelSelectorRequirement.operator LabelSelectorRequirement.values
         Sdk.strings].
  rewrite valid_strings. reflexivity.
Qed.

Lemma LabelSelectorRequirement_mapM_valued
    (rs : list (string * LabelOperator.t * list string)) :
  mapM LabelSelectorRequirement.get_spec
    ((λ r, LabelSelectorRequirement.mk r.1.1 r.1.2 (Some r.2)) <$> rs)
  = Ok ((λ r, VModel Sdk.LabelSelectorRequirement
                [("key", VStr r.1.1);
                 ("operator", VStr (LabelOperator.value r.1.2));
                 ("values", VList (VStr <$> r.2))]) <$> rs).
Proof.
  induction rs as [|r rs IH]; [reflexivity|].
  rewrite !fmap_cons. cbn [mapM].
  rewrite LabelSelectorRequirement_valued. simpl. rewrite IH. reflexivity.
Qed.

Lemma valid_requirement_records
    (rs : list (string * LabelOperator.t * list string)) :
  forallb (Sdk.valid (Sdk.TModel Sdk.LabelSelectorRequirement))
    ((λ r, VModel Sdk.LabelSelectorRequirement
             [("key", VStr r.1.1);
              ("operator", VStr (LabelOperator.value r.1.2));
              ("values", VList (VStr <$> r.2))]) <$> rs)
  = true.
Proof. induction rs as [|r rs IH]; [reflexivity|]. rewrite fmap_cons. exact IH. Qed.

(** ** When a node is absent *)

(** C1.  For each node class all of whose attributes are optional,
    [get_spec] returns absent iff every attribute of the node itself is
    [None].  Absence does not propagate upward: the three categories of
    [hollow_affinity] are present objects and each of them materializes to
    absent, and [Affinity.get_spec] hands the three [None] to [ArgoAffinity],
    which raises. *)
Theorem hollow_affinity_raises :
  (∀ r, NodeSelectorRequirement.get_spec r = Ok VNone ↔
        NodeSelectorRequirement.values r = None) ∧
  (∀ t, NodeSelectorTerm.get_spec t = Ok VNone ↔
        NodeSelectorTerm.expressions t = None ∧
        NodeSelectorTerm.fields t = None) ∧
  (∀ s, LabelSelector.get_spec s = Ok VNone ↔
        LabelSelector.match_expressions s = None ∧
        LabelSelector.match_labels s = None) ∧
  (∀ a, PodAffinity.get_spec a = Ok VNone ↔
        PodAffinity.preferred_during_scheduling_ignored_during_execution a = None ∧
        PodAffinity.required_during_scheduling_ignored_during_execution a = None) ∧
  (∀ a, PodAntiAffinity.get_spec a = Ok VNone ↔
        PodAntiAffinity.preferred_during_scheduling_ignored_during_execution a = None ∧
        PodAntiAffinity.required_during_scheduling_ignored_during_execution a = None) ∧
  (∀ a, NodeAffinity.get_spec a = Ok VNone ↔
        NodeAffinity.preferred_during_scheduling_ignored_during_execution a = None ∧
        NodeAffinity.required_during_scheduling_ignored_during_execution a = None) ∧
  (∀ a, Affinity.get_spec a = Ok VNone ↔
        Affinity.pod_affinity a = None ∧ Affinity.pod_anti_affinity a = None ∧
        Affinity.node_affinity a = None) ∧
  PodAffinity.get_spec (PodAffinity.mk None None) = Ok VNone ∧
  PodAntiAffinity.get_spec (PodAntiAffinity.mk None None) = Ok VNone ∧
  NodeAffinity.get_spec (NodeAffinity.mk None None) = Ok VNone ∧
  ArgoAffinity.new VNone VNone VNone = Raise ApiTypeError ∧
  Affinity.get_spec hollow_affinity = Raise ApiTypeError.
Proof.
  split_and!; try reflexivity;
    auto using NodeSelectorRequirement_absent, NodeSelectorTerm_absent,
      LabelSelector_absent, PodAffinity_absent, PodAntiAffinity_absent,
      NodeAffinity_absent, Affinity_absent.
Qed.

(** ** The constructor calls that raise *)

(** C2.  What [NodeAffinity.get_spec] passes as
    [required_during_scheduling_ignored_during_execution] is what
    [NodeSelectorTerm.get_spec] returns, an instance of
    [ArgoNodeSelectorTerm]; no [ArgoNodeSelector] with a list of terms is
    put around it, as [PreferredSchedulingTerm.get_spec] does for its own
    terms.  [ArgoNodeAffinity] takes a node selector there and raises on the
    term, whatever the other argument; [NodeAffinity.get_spec] returns a
    record for no node. *)
Theorem NodeAffinity_required_is_a_bare_term :
  NodeSelectorTerm.get_spec empty_term = Ok empty_term_spec ∧
  NodeAffinity.get_spec (NodeAffinity.mk None (Some empty_term))
  = Raise ApiTypeError ∧
  (∀ t, NodeAffinity.get_spec (NodeAffinity.mk None (Some t)) =
        required ← NodeSelectorTerm.get_spec t;
        ArgoNodeAffinity.new VNone required) ∧
  (∀ preferred kwargs,
     ArgoNodeAffinity.new preferred (VModel Sdk.NodeSelectorTerm kwargs)
     = Raise ApiTypeError) ∧
  ArgoNodeSelector.new (VList [empty_term_spec])
  = Ok (VModel Sdk.NodeSelector
          [("node_selector_terms", VList [empty_term_spec])]) ∧
  (∀ a, NodeAffinity.get_spec a = Ok VNone ∨
        ∃ e, NodeAffinity.get_spec a = Raise e).
Proof.
  split_and!; try reflexivity.
  - intros preferred kwargs. unfold ArgoNodeAffinity.new, Sdk.checked. simpl.
    by rewrite andb_false_r.
  - intros a. destruct (NodeAffinity.get_spec a) as [v|e] eqn:E; [|eauto].
    left. by apply NodeAffinity_Ok_inv in E as [-> _].
Qed.

(** C3.  A [LabelSelector] built with [match_labels] only: [get_spec]
    iterates over [match_expressions], which is [None], and raises.  When
    [match_expressions] is a list, [ArgoLabelSelector] is called with the
    records of the expressions alone, whatever [match_labels] holds: the
    mapping never reaches it.  For expressions that all have values the
    record of their records is returned. *)
Theorem LabelSelector_labels_only_raises :
  LabelSelector.get_spec
    (LabelSelector.mk None (Some ({["app" := "x"]} : gmap string string)))
  = Raise not_iterable ∧
  (∀ labels, LabelSelector.get_spec (LabelSelector.mk None (Some labels))
             = Raise not_iterable) ∧
  (∀ es labels,
     LabelSelector.get_spec (LabelSelector.mk (Some es) labels) =
     exprs ← mapM LabelSelectorRequirement.get_spec es;
     ArgoLabelSelector.new (VList exprs)) ∧
  (∀ (rs : list (string * LabelOperator.t * list string)) labels,
     LabelSelector.get_spec
       (LabelSelector.mk
          (Some ((λ r, LabelSelectorRequirement.mk r.1.1 r.1.2 (Some r.2))
                 <$> rs))
          labels)
     = Ok (VModel Sdk.LabelSelector
             [("match_expressions",
               VList ((λ r, VModel Sdk.LabelSelectorRequirement
                              [("key", VStr r.1.1);
                               ("operator", VStr (LabelOperator.value r.1.2));
                               ("values", VList (VStr <$> r.2))])
                      <$> rs))])) ∧
  (∀ labels,
     LabelSelector.get_spec (LabelSelector.mk (Some [app_x]) labels)
     = Ok app_x_selector_spec).
Proof.
  split_and!; try reflexivity.
  intros rs labels. unfold LabelSelector.get_spec, comprehension. simpl.
  rewrite LabelSelectorRequirement_mapM_valued. simpl.
  unfold ArgoLabelSelector.new, Sdk.checked. simpl.
  rewrite valid_requirement_records. reflexivity.
Qed.

(** C4.  A [NodeSelectorTerm] with exactly one of its two lists absent:
    the test passes and [get_spec] raises, on the comprehension over the
    absent list when it gets there.  With two empty lists it returns a
    record, with two absent lists it returns absent. *)
Theorem NodeSelectorTerm_one_list_absent_raises :
  NodeSelectorTerm.get_spec (NodeSelectorTerm.mk (Some []) None)
  = Raise not_iterable ∧
  (∀ fs, NodeSelectorTerm.get_spec (NodeSelectorTerm.mk None (Some fs))
         = Raise not_iterable) ∧
  (∀ es, ∃ e, NodeSelectorTerm.get_spec (NodeSelectorTerm.mk (Some es) None)
              = Raise e) ∧
  NodeSelectorTerm.get_spec empty_term = Ok empty_term_spec ∧
  NodeSelectorTerm.get_spec (NodeSelectorTerm.mk None None) = Ok VNone.
Proof.
  split_and!; try reflexivity.
  intros es.
  destruct (NodeSelectorTerm.get_spec (NodeSelectorTerm.mk (Some es) None))
    as [v|e] eqn:E; [|eauto].
  apply NodeSelectorTerm_Ok_inv in E as [[E _]|[E _]]; discriminate.
Qed.

(** C5.  [get_spec] has an error of its own: on the node affinity whose
    required term is built from an empty list of expressions (the second
    list keeps its default, [None]) it raises, and so does the [Affinity]
    holding it; a [PodAffinityTerm] whose label selector has labels only
    raises too. *)
Theorem get_spec_raises_on_constructed_nodes :
  let term := NodeSelectorTerm.mk (Some []) None in
  let selector :=
    LabelSelector.mk None (Some ({["app" := "x"]} : gmap string string)) in
  NodeAffinity.get_spec (NodeAffinity.mk None (Some term))
  = Raise not_iterable ∧
  Affinity.get_spec
    (Affinity.mk None None (Some (NodeAffinity.mk None (Some term))))
  = Raise not_iterable ∧
  PodAffinityTerm.get_spec
    (PodAffinityTerm.mk "kubernetes.io/hostname" (Some selector) None None)
  = Raise not_iterable.
Proof. repeat split. Qed.

(** C7.  [LabelSelectorRequirement.get_spec] passes the key, the string of
    the operator and the values to [ArgoLabelSelectorRequirement]; the
    string is one of the four literals, each operator having its own.  With
    values it returns the record of the three; without values, which is the
    default of the constructor, it passes [None] and the call raises. *)
Theorem LabelSelectorRequirement_spec :
  (∀ k op v,
     LabelSelectorRequirement.get_spec (LabelSelectorRequirement.mk k op (Some v))
     = Ok (VModel Sdk.LabelSelectorRequirement
             [("key", VStr k); ("operator", VStr (LabelOperator.value op));
              ("values", VList (VStr <$> v))])) ∧
  (∀ k op,
     LabelSelectorRequirement.get_spec (LabelSelectorRequirement.mk k op None)
     = Raise ApiTypeError) ∧
  LabelSelectorRequirement.get_spec
    (LabelSelectorRequirement.mk "app" LabelOperator.Exists None)
  = Raise ApiTypeError ∧
  (∀ op, LabelOperator.value op ∈ ["In"; "NotIn"; "Exists"; "DoesNotExist"]) ∧
  LabelOperator.value LabelOperator.In = "In" ∧
  LabelOperator.value LabelOperator.NotIn = "NotIn" ∧
  LabelOperator.value LabelOperator.Exists = "Exists" ∧
  LabelOperator.value LabelOperator.DoesNotExist = "DoesNotExist".
Proof.
  split_and!; try reflexivity.
  - apply LabelSelectorRequirement_valued.
  - intros []; set_solver.
Qed.

(** C8.  A weighted term around a pod affinity term with a topology key and
    nothing else: [PodAffinityTerm.get_spec] passes [None] for the two
    selectors and the namespaces, and [ArgoPodAffinityTerm] raises; so it is
    for the weight 50 and the key ["kubernetes.io/hostname"]. *)
Theorem WeightedPodAffinityTerm_hostname_raises :
  WeightedPodAffinityTerm.get_spec
    (WeightedPodAffinityTerm.mk
       (PodAffinityTerm.mk "kubernetes.io/hostname" None None None) 50)
  = Raise ApiTypeError ∧
  (∀ key weight,
     WeightedPodAffinityTerm.get_spec
       (WeightedPodAffinityTerm.mk (PodAffinityTerm.mk key None None None)
          weight)
     = Raise ApiTypeError) ∧
  (∀ key, ArgoPodAffinityTerm.new (VStr key) VNone VNone VNone
          = Raise ApiTypeError).
Proof. split_and!; reflexivity. Qed.

(** C9.  For an empty list of preferred terms [NodeAffinity.get_spec]
    passes [None] (the list is tested by its truth value) and
    [PodAffinity.get_spec] passes the empty list (tested by [is not None]).
    With nothing else given both calls raise, on a [None] argument; with an
    empty list of required terms too, [PodAffinity.get_spec] returns the
    record of two empty lists. *)
Theorem empty_preferred_list_NodeAffinity_vs_PodAffinity :
  NodeAffinity.get_spec (NodeAffinity.mk (Some []) None)
  = ArgoNodeAffinity.new VNone VNone ∧
  PodAffinity.get_spec (PodAffinity.mk (Some []) None)
  = ArgoPodAffinity.new (VList []) VNone ∧
  NodeAffinity.get_spec (NodeAffinity.mk (Some []) None)
  = Raise ApiTypeError ∧
  PodAffinity.get_spec (PodAffinity.mk (Some []) None) = Raise ApiTypeError ∧
  (∀ t, NodeAffinity.get_spec (NodeAffinity.mk (Some []) (Some t))
        = NodeAffinity.get_spec (NodeAffinity.mk None (Some t))) ∧
  PodAffinity.get_spec (PodAffinity.mk (Some []) (Some []))
  = Ok (VModel Sdk.PodAffinity
          [("preferred_during_scheduling_ignored_during_execution", VList []);
           ("required_during_scheduling_ignored_during_execution", VList [])]) ∧
  PodAffinity.get_spec (PodAffinity.mk None (Some [])) = Raise ApiTypeError.
Proof. split_and!; reflexivity. Qed.

(** ** Namespaces of the workflow service *)

Section WorkflowServiceNamespaces.
Context {Configuration Workflow Response Deleted : Type}.
Variable Config : string → Configuration.
Variable create_workflow :
  WorkflowService.WorkflowServiceApi (Configuration := Configuration)
  → string → WorkflowService.CreateRequest (Workflow := Workflow)
  → bool → Response.
Variable delete_workflow :
  WorkflowService.WorkflowServiceApi (Configuration := Configuration)
  → string → string → bool → Deleted.

(** C10.  [submit] sends the workflow to the namespace it is called with,
    ['default'] when it is called with none, whatever namespace the service
    was constructed with; [delete] and [get_workflow_link] use the namespace
    of the construction. *)
Theorem submit_and_delete_namespaces
    (domain token : string) (constructed : option string)
    (workflow : Workflow) (name : string) :
  let svc := WorkflowService.__init__ Config domain token constructed in
  (∀ ns, WorkflowService.submit create_workflow svc workflow (Some ns)
         = create_workflow (WorkflowService.service svc) ns
             (WorkflowService.mkCreateRequest workflow ns) false) ∧
  WorkflowService.submit create_workflow svc workflow None
  = create_workflow (WorkflowService.service svc) "default"
      (WorkflowService.mkCreateRequest workflow "default") false ∧
  (∀ other ns,
     WorkflowService.submit create_workflow
       (WorkflowService.__init__ Config domain token other) workflow ns
     = WorkflowService.submit create_workflow svc workflow ns) ∧
  WorkflowService.delete delete_workflow svc name
  = delete_workflow (WorkflowService.service svc)
      (default "default" constructed) name false ∧
  WorkflowService.get_workflow_link svc name
  = "https://" +:+ domain +:+ "/workflows/" +:+ default "default" constructed
      +:+ "/" +:+ name +:+ "?tab=workflow".
Proof. repeat split. Qed.
End WorkflowServiceNamespaces.

(** ** [get_spec] leaves the store as it is *)

Lemma reads_ret {A : Type} (a : A) : reads (mret a).
Proof. intros h. reflexivity. Qed.

Lemma reads_raise {A : Type} (e : exn) : reads (Store.raise (A := A) e).
Proof. intros h. reflexivity. Qed.

Lemma reads_getattr {A : Type} (proj : Store.obj → option A) (l : Store.loc) :
  reads (Store.getattr proj l).
Proof.
  intros h. unfold Store.getattr.
  destruct (h !! l) as [o|]; [destruct (proj o)|]; reflexivity.
Qed.

Lemma reads_bind {A B : Type} (m : Store.M A) (f : A → Store.M B) :
  reads m → (∀ a, reads (f a)) → reads (m ≫= f).
Proof.
  intros Hm Hf h. unfold mbind, Store.M_bind.
  specialize (Hm h). destruct (m h) as [[a|e] h']; simpl in Hm; subst h'.
  - apply Hf.
  - reflexivity.
Qed.

Lemma reads_mapM {A B : Type} (f : A → Store.M B) (l : list A) :
  (∀ a, reads (f a)) → reads (mapM f l).
Proof.
  intros Hf. induction l as [|x l IH]; cbn [mapM].
  - apply reads_ret.
  - apply reads_bind; [apply Hf|]. intros y.
    apply reads_bind; [apply IH|]. intros k. apply reads_ret.
Qed.

Lemma reads_not_None {A : Type} (x : Store.M (option A)) :
  reads x → reads (Store.not_None x).
Proof. intros Hx. apply reads_bind; [exact Hx|]. intros v. apply reads_ret. Qed.

Lemma reads_or_else (a b : Store.M bool) :
  reads a → reads b → reads (Store.or_else a b).
Proof.
  intros Ha Hb. apply reads_bind; [exact Ha|].
  intros [|]; [apply reads_ret | exact Hb].
Qed.

Lemma reads_comprehension {A B : Type} (f : A → Store.M B)
    (xs : Store.M (option (list A))) :
  (∀ a, reads (f a)) → reads xs → reads (Store.comprehension f xs).
Proof.
  intros Hf Hxs. apply reads_bind; [exact Hxs|]. intros [l|]; simpl.
  - apply reads_bind; [apply reads_ret|]. intros k. by apply reads_mapM.
  - apply reads_bind; [apply reads_raise|]. intros k. by apply reads_mapM.
Qed.

Lemma reads_call {A B : Type} (x : Store.M (option A)) (m : A → Store.M B) :
  reads x → (∀ a, reads (m a)) → reads (Store.call x m).
Proof.
  intros Hx Hm. apply reads_bind; [exact Hx|].
  intros [a|]; [apply Hm | apply reads_raise].
Qed.

Lemma reads_sdk {A : Type} (r : result A) : reads (Store.sdk r).
Proof. intros h. reflexivity. Qed.

Create HintDb reads.

Ltac reads_step :=
  first
    [ apply reads_ret
    | apply reads_sdk
    | apply reads_getattr
    | apply reads_not_None
    | apply reads_or_else
    | apply reads_comprehension; [intros ?|]
    | apply reads_call; [|intros ?]
    | apply reads_mapM; intros ?
    | solve [auto with reads]
    | apply reads_bind; [|intros ?]
    | match goal with
      | |- reads (if ?c then _ else _) => destruct c
      | |- reads (match ?c with _ => _ end) => destruct c
      end ].

Lemma reads_NodeSelectorRequirement l :
  reads (Store.NodeSelectorRequirement.get_spec l).
Proof. unfold Store.NodeSelectorRequirement.get_spec. repeat reads_step. Qed.
#[local] Hint Resolve reads_NodeSelectorRequirement : reads.

Lemma reads_NodeSelectorTerm l : reads (Store.NodeSelectorTerm.get_spec l).
Proof. unfold Store.NodeSelectorTerm.get_spec. repeat reads_step. Qed.
#[local] Hint Resolve reads_NodeSelectorTerm : reads.

Lemma reads_PreferredSchedulingTerm l :
  reads (Store.PreferredSchedulingTerm.get_spec l).
Proof. unfold Store.PreferredSchedulingTerm.get_spec. repeat reads_step. Qed.
#[local] Hint Resolve reads_PreferredSchedulingTerm : reads.

Lemma reads_LabelSelectorRequirement l :
  reads (Store.LabelSelectorRequirement.get_spec l).
Proof. unfold Store.LabelSelectorRequirement.get_spec. repeat reads_step. Qed.
#[local] Hint Resolve reads_LabelSelectorRequirement : reads.

Lemma reads_LabelSelector l : reads (Store.LabelSelector.get_spec l).
Proof. unfold Store.LabelSelector.get_spec. repeat reads_step. Qed.
#[local] Hint Resolve reads_LabelSelector : reads.

Lemma reads_PodAffinityTerm l : reads (Store.PodAffinityTerm.get_spec l).
Proof. unfold Store.PodAffinityTerm.get_spec. repeat reads_step. Qed.
#[local] Hint Resolve reads_PodAffinityTerm : reads.

Lemma reads_WeightedPodAffinityTerm l :
  reads (Store.WeightedPodAffinityTerm.get_spec l).
Proof. unfold Store.WeightedPodAffinityTerm.get_spec. repeat reads_step. Qed.
#[local] Hint Resolve reads_WeightedPodAffinityTerm : reads.

Lemma reads_PodAffinity l : reads (Store.PodAffinity.get_spec l).
Proof. unfold Store.PodAffinity.get_spec. repeat reads_step. Qed.
#[local] Hint Resolve reads_PodAffinity : reads.

Lemma reads_PodAntiAffinity l : reads (Store.PodAntiAffinity.get_spec l).
Proof. unfold Store.PodAntiAffinity.get_spec. repeat reads_step. Qed.
#[local] Hint Resolve reads_PodAntiAffinity : reads.

Lemma reads_NodeAffinity l : reads (Store.NodeAffinity.get_spec l).
Proof. unfold Store.NodeAffinity.get_spec. repeat reads_step. Qed.
#[local] Hint Resolve reads_NodeAffinity : reads.

Lemma reads_Affinity l : reads (Store.Affinity.get_spec l).
Proof. unfold Store.Affinity.get_spec. repeat reads_step. Qed.

(** Successive runs of a computation that only reads: the same outcome
    every time, the store as it was. *)
Lemma outcomes_reads {A : Type} (m : Store.M A) (n : nat) (h : Store.heap) :
  reads m → Store.outcomes n m h = (replicate n (m h).1, h).
Proof.
  intros Hm. induction n as [|n IH]; [reflexivity|].
  cbn [Store.outcomes replicate]. specialize (Hm h).
  destruct (m h) as [r h'] eqn:E. simpl in Hm. subst h'.
  rewrite IH. reflexivity.
Qed.

(** C6.  For every node class and every store, any number of successive
    invocations of [get_spec] on the same object give the same outcome each
    time, and leave the store, so every attribute of every object, as it
    was. *)
Theorem get_spec_repeated_invocations
    (h : Store.heap) (self : Store.loc) (n : nat) :
  Store.outcomes n (Store.NodeSelectorRequirement.get_spec self) h
  = (replicate n (Store.NodeSelectorRequirement.get_spec self h).1, h) ∧
  Store.outcomes n (Store.NodeSelectorTerm.get_spec self) h
  = (replicate n (Store.NodeSelectorTerm.get_spec self h).1, h) ∧
  Store.outcomes n (Store.PreferredSchedulingTerm.get_spec self) h
  = (replicate n (Store.PreferredSchedulingTerm.get_spec self h).1, h) ∧
  Store.outcomes n (Store.LabelSelectorRequirement.get_spec self) h
  = (replicate n (Store.LabelSelectorRequirement.get_spec self h).1, h) ∧
  Store.outcomes n (Store.LabelSelector.get_spec self) h
  = (replicate n (Store.LabelSelector.get_spec self h).1, h) ∧
  Store.outcomes n (Store.PodAffinityTerm.get_spec self) h
  = (replicate n (Store.PodAffinityTerm.get_spec self h).1, h) ∧
  Store.outcomes n (Store.WeightedPodAffinityTerm.get_spec self) h
  = (replicate n (Store.WeightedPodAffinityTerm.get_spec self h).1, h) ∧
  Store.outcomes n (Store.PodAffinity.get_spec self) h
  = (replicate n (Store.PodAffinity.get_spec self h).1, h) ∧
  Store.outcomes n (Store.PodAntiAffinity.get_spec self) h
  = (replicate n (Store.PodAntiAffinity.get_spec self h).1, h) ∧
  Store.outcomes n (Store.NodeAffinity.get_spec self) h
  = (replicate n (Store.NodeAffinity.get_spec self h).1, h) ∧
  Store.outcomes n (Store.Affinity.get_spec self) h
  = (replicate n (Store.Affinity.get_spec self h).1, h).
Proof.
  repeat split_and; apply outcomes_reads;
    auto using reads_NodeSelectorRequirement, reads_NodeSelectorTerm,
      reads_PreferredSchedulingTerm, reads_LabelSelectorRequirement,
      reads_LabelSelector, reads_PodAffinityTerm,
      reads_WeightedPodAffinityTerm, reads_PodAffinity,
      reads_PodAntiAffinity, reads_NodeAffinity, reads_Affinity.
Qed.



(** ** The store methods compute the functions on trees *)

Lemma refines_ret {A : Type} (a : A) h : refines (mret a) (Ok a) h.
Proof. reflexivity. Qed.

Lemma refines_getattr {A : Type} (proj : Store.obj → option A) l h o a :
  h !! l = Some o → proj o = Some a → refines (Store.getattr proj l) (Ok a) h.
Proof.
  intros E P. unfold refines, Store.getattr. rewrite E, P. reflexivity.
Qed.

(** A step of the store computation that the function on trees does not
    have: the read of an attribute. *)
Lemma refines_read {A B : Type} (m : Store.M A) (f : A → Store.M B) a r h :
  refines m (Ok a) h → refines (f a) r h → refines (m ≫= f) r h.
Proof. unfold refines, mbind, Store.M_bind. intros -> ->. reflexivity. Qed.

Lemma refines_bind {A B : Type} (m : Store.M A) (f : A → Store.M B)
    (r : result A) (g : A → result B) h :
  refines m r h → (∀ a, refines (f a) (g a) h) → refines (m ≫= f) (r ≫= g) h.
Proof.
  unfold refines, mbind at 1, Store.M_bind. intros -> Hf.
  destruct r as [a|e]; [apply Hf | reflexivity].
Qed.

Lemma refines_not_None {A : Type} (x : Store.M (option A)) v h :
  refines x (Ok v) h → refines (Store.not_None x) (Ok (is_not_None v)) h.
Proof. intros H. eapply refines_read; [exact H | apply refines_ret]. Qed.

Lemma refines_or_else (a b : Store.M bool) x y h :
  refines a (Ok x) h → refines b (Ok y) h →
  refines (Store.or_else a b) (Ok (x || y)) h.
Proof.
  intros Ha Hb. eapply refines_read; [exact Ha|].
  destruct x; [apply refines_ret | exact Hb].
Qed.

Lemma refines_mapM {A B C : Type} (abs : A → option B)
    (g : A → Store.M C) (f : B → result C) h ls ts :
  (∀ l t, abs l = Some t → refines (g l) (f t) h) →
  mapM abs ls = Some ts → refines (mapM g ls) (mapM f ts) h.
Proof.
  intros Hg Habs. apply mapM_Some_1 in Habs.
  induction Habs as [|l t ls ts E _ IH]; [apply refines_ret|].
  cbn [mapM]. apply refines_bind; [auto|]. intros c.
  apply refines_bind; [exact IH|]. intros k. apply refines_ret.
Qed.

Lemma refines_comprehension {A B : Type} (abs : Store.loc → option A)
    (g : Store.loc → Store.M B) (f : A → result B) xs v v' h :
  (∀ l t, abs l = Some t → refines (g l) (f t) h) →
  refines xs (Ok v) h → Abstraction.opt_list abs v = Some v' →
  refines (Store.comprehension g xs) (comprehension f v') h.
Proof.
  intros Hg Hxs Hv. unfold Store.comprehension.
  eapply refines_read; [exact Hxs|].
  destruct v as [ls|]; simpl in Hv.
  - destruct (mapM abs ls) as [ts|] eqn:E; [|discriminate].
    injection Hv as <-. eapply refines_read; [apply refines_ret|].
    unfold comprehension. simpl. eapply refines_mapM; eauto.
  - injection Hv as <-. reflexivity.
Qed.

Lemma refines_call {A B : Type} (abs : Store.loc → option A)
    (g : Store.loc → Store.M B) (f : A → result B) x v v' h :
  (∀ l t, abs l = Some t → refines (g l) (f t) h) →
  refines x (Ok v) h → Abstraction.opt abs v = Some v' →
  refines (Store.call x g) (call v' f) h.
Proof.
  intros Hg Hx Hv. unfold Store.call. eapply refines_read; [exact Hx|].
  destruct v as [l|]; simpl in Hv.
  - destruct (abs l) as [t|] eqn:E; [|discriminate].
    injection Hv as <-. simpl. auto.
  - injection Hv as <-. reflexivity.
Qed.

(** The tests on an attribute come out the same on its abstraction. *)
Lemma opt_list_is_not_None {A : Type} (abs : Store.loc → option A) v v' :
  Abstraction.opt_list abs v = Some v' → is_not_None v = is_not_None v'.
Proof.
  destruct v as [ls|]; simpl.
  - destruct (mapM abs ls); simpl; [|discriminate]. by intros [= <-].
  - by intros [= <-].
Qed.

Lemma opt_list_truthy {A : Type} (abs : Store.loc → option A) v v' :
  Abstraction.opt_list abs v = Some v' → truthy_list v = truthy_list v'.
Proof.
  destruct v as [ls|]; simpl.
  - destruct (mapM abs ls) as [ts|] eqn:E; simpl; [|discriminate].
    intros [= <-]. apply length_mapM in E. by destruct ls, ts.
  - by intros [= <-].
Qed.

Lemma opt_is_not_None {A : Type} (abs : Store.loc → option A) v v' :
  Abstraction.opt abs v = Some v' → is_not_None v = is_not_None v'.
Proof.
  destruct v as [l|]; simpl.
  - destruct (abs l); simpl; [|discriminate]. by intros [= <-].
  - by intros [= <-].
Qed.

Lemma opt_truthy {A : Type} (abs : Store.loc → option A) v v' :
  Abstraction.opt abs v = Some v' → truthy v = truthy v'.
Proof. apply opt_is_not_None. Qed.

Lemma refines_sdk {A : Type} (r : result A) h : refines (Store.sdk r) r h.
Proof. reflexivity. Qed.

Create HintDb refines.

(** Reads of the attributes of the object described by [E]. *)
Ltac attribute E :=
  first
    [ eapply refines_or_else; [attribute E | attribute E]
    | eapply refines_not_None; attribute E
    | eapply refines_getattr; [exact E | reflexivity] ].

Ltac same_test :=
  repeat first
    [ erewrite opt_list_is_not_None by eassumption
    | erewrite opt_is_not_None by eassumption
    | erewrite opt_list_truthy by eassumption
    | erewrite opt_truthy by eassumption ];
  lazymatch goal with
  | |- refines (if ?c then _ else _) (if ?c' then _ else _) _ =>
      change c with c'; destruct c'
  end.

Ltac refines_step E :=
  first
    [ apply refines_ret
    | apply refines_sdk
    | eapply refines_comprehension;
        [intros; eauto with refines | attribute E | eassumption]
    | eapply refines_call;
        [intros; eauto with refines | attribute E | eassumption]
    | eapply refines_mapM; [intros; eauto with refines | eassumption]
    | eapply refines_read; [attribute E|]; cbn -[mbind]
    | same_test
    | apply refines_bind; [|intros ?] ].

(** The object at the address, from the hypothesis that it has a tree. *)
Ltac refines_class E :=
  intros H;
  match type of H with
  | context [?h !! ?l] => destruct (h !! l) as [[]|] eqn:E; try discriminate
  end;
  simplify_option_eq.

Lemma refines_NodeSelectorRequirement h l t :
  Abstraction.node_selector_requirement h l = Some t →
  refines (Store.NodeSelectorRequirement.get_spec l)
    (NodeSelectorRequirement.get_spec t) h.
Proof.
  unfold Abstraction.node_selector_requirement. refines_class E.
  unfold Store.NodeSelectorRequirement.get_spec, NodeSelectorRequirement.get_spec.
  cbn -[mbind]. repeat refines_step E.
Qed.
#[local] Hint Resolve refines_NodeSelectorRequirement : refines.

Lemma refines_NodeSelectorTerm h l t :
  Abstraction.node_selector_term h l = Some t →
  refines (Store.NodeSelectorTerm.get_spec l) (NodeSelectorTerm.get_spec t) h.
Proof.
  unfold Abstraction.node_selector_term. refines_class E.
  unfold Store.NodeSelectorTerm.get_spec, NodeSelectorTerm.get_spec.
  cbn -[mbind]. repeat refines_step E.
Qed.
#[local] Hint Resolve refines_NodeSelectorTerm : refines.

Lemma refines_PreferredSchedulingTerm h l t :
  Abstraction.preferred_scheduling_term h l = Some t →
  refines (Store.PreferredSchedulingTerm.get_spec l)
    (PreferredSchedulingTerm.get_spec t) h.
Proof.
  unfold Abstraction.preferred_scheduling_term. refines_class E.
  unfold Store.PreferredSchedulingTerm.get_spec, PreferredSchedulingTerm.get_spec.
  cbn -[mbind]. repeat refines_step E.
Qed.
#[local] Hint Resolve refines_PreferredSchedulingTerm : refines.

Lemma refines_LabelSelectorRequirement h l t :
  Abstraction.label_selector_requirement h l = Some t →
  refines (Store.LabelSelectorRequirement.get_spec l)
    (LabelSelectorRequirement.get_spec t) h.
Proof.
  unfold Abstraction.label_selector_requirement. refines_class E.
  unfold Store.LabelSelectorRequirement.get_spec, LabelSelectorRequirement.get_spec.
  cbn -[mbind]. repeat refines_step E.
Qed.
#[local] Hint Resolve refines_LabelSelectorRequirement : refines.

Lemma refines_LabelSelector h l t :
  Abstraction.label_selector h l = Some t →
  refines (Store.LabelSelector.get_spec l) (LabelSelector.get_spec t) h.
Proof.
  unfold Abstraction.label_selector. refines_class E.
  unfold Store.LabelSelector.get_spec, LabelSelector.get_spec.
  cbn -[mbind]. repeat refines_step E.
Qed.
#[local] Hint Resolve refines_LabelSelector : refines.

Lemma refines_PodAffinityTerm h l t :
  Abstraction.pod_affinity_term h l = Some t →
  refines (Store.PodAffinityTerm.get_spec l) (PodAffinityTerm.get_spec t) h.
Proof.
  unfold Abstraction.pod_affinity_term. refines_class E.
  unfold Store.PodAffinityTerm.get_spec, PodAffinityTerm.get_spec.
  cbn -[mbind]. refines_step E.
  apply refines_bind; [repeat refines_step E | intros ls].
  apply refines_bind; [repeat refines_step E | intros ns].
  eapply (refines_read _ _
            (if is_not_None namespaces then Sdk.strings namespaces else VNone));
    [|apply refines_sdk].
  eapply refines_read; [attribute E|].
  destruct namespaces; simpl; [|apply refines_ret].
  eapply refines_read; [attribute E | apply refines_ret].
Qed.
#[local] Hint Resolve refines_PodAffinityTerm : refines.

Lemma refines_WeightedPodAffinityTerm h l t :
  Abstraction.weighted_pod_affinity_term h l = Some t →
  refines (Store.WeightedPodAffinityTerm.get_spec l)
    (WeightedPodAffinityTerm.get_spec t) h.
Proof.
  unfold Abstraction.weighted_pod_affinity_term. refines_class E.
  unfold Store.WeightedPodAffinityTerm.get_spec, WeightedPodAffinityTerm.get_spec.
  cbn -[mbind]. refines_step E.
  apply refines_bind; [eauto with refines | intros term].
  repeat refines_step E.
Qed.
#[local] Hint Resolve refines_WeightedPodAffinityTerm : refines.

Lemma refines_PodAffinity h l t :
  Abstraction.pod_affinity h l = Some t →
  refines (Store.PodAffinity.get_spec l) (PodAffinity.get_spec t) h.
Proof.
  unfold Abstraction.pod_affinity. refines_class E.
  unfold Store.PodAffinity.get_spec, PodAffinity.get_spec.
  cbn -[mbind]. repeat refines_step E.
Qed.
#[local] Hint Resolve refines_PodAffinity : refines.

Lemma refines_PodAntiAffinity h l t :
  Abstraction.pod_anti_affinity h l = Some t →
  refines (Store.PodAntiAffinity.get_spec l) (PodAntiAffinity.get_spec t) h.
Proof.
  unfold Abstraction.pod_anti_affinity. refines_class E.
  unfold Store.PodAntiAffinity.get_spec, PodAntiAffinity.get_spec.
  cbn -[mbind]. repeat refines_step E.
Qed.
#[local] Hint Resolve refines_PodAntiAffinity : refines.

Lemma refines_NodeAffinity h l t :
  Abstraction.node_affinity h l = Some t →
  refines (Store.NodeAffinity.get_spec l) (NodeAffinity.get_spec t) h.
Proof.
  unfold Abstraction.node_affinity. refines_class E.
  unfold Store.NodeAffinity.get_spec, NodeAffinity.get_spec.
  cbn -[mbind]. repeat refines_step E.
Qed.
#[local] Hint Resolve refines_NodeAffinity : refines.

(** On a store that holds the tree [t] at [l], [get_spec] of the object at
    [l] returns what [Affinity.get_spec] returns for [t]. *)
Lemma refines_Affinity h l t :
  Abstraction.affinity h l = Some t →
  refines (Store.Affinity.get_spec l) (Affinity.get_spec t) h.
Proof.
  unfold Abstraction.affinity. refines_class E.
  unfold Store.Affinity.get_spec, Affinity.get_spec.
  cbn -[mbind]. repeat refines_step E.
Qed.

Lemma Affinity_outcomes h l t n :
  Abstraction.affinity h l = Some t →
  Store.outcomes n (Store.Affinity.get_spec l) h
  = (replicate n (Affinity.get_spec t), h).
Proof.
  intros Ht. rewrite outcomes_reads by apply reads_Affinity.
  rewrite (refines_Affinity _ _ _ Ht). reflexivity.
Qed.

(** The objects allocated by [construct_zone_a] in the empty store hold the
    tree [zone_a_affinity]; each of three invocations of [get_spec] on the
    root raises the [TypeError] of [ArgoNodeSelectorRequirement], which is
    called without its key and operator. *)
Example construct_zone_a_outcomes :
  ∃ l h,
    construct_zone_a ∅ = (Ok l, h) ∧
    Abstraction.affinity h l = Some zone_a_affinity ∧
    Store.outcomes 3 (Store.Affinity.get_spec l) h
    = (replicate 3 (Raise (MissingArguments ["key"; "operator"])), h).
Proof.
  exists 4%positive, (construct_zone_a ∅).2.
  split; [vm_compute; reflexivity|].
  assert (Abstraction.affinity
            (construct_zone_a ∅).2 4%positive = Some zone_a_affinity) as Ht
    by (vm_compute; reflexivity).
  split; [exact Ht|].
  rewrite (Affinity_outcomes _ _ _ 3 Ht). reflexivity.
Qed.

(** * Further properties

    Properties of the same methods beyond the claims above, and of the
    constructors, which the store model runs. *)

(** ** The nodes for which [get_spec] returns *)


(** X6.  [NodeSelectorTerm.get_spec] returns in two cases only: absent for
    the term whose two lists are [None], and the record of two empty lists
    for the term whose two lists are empty.  A term that holds a
    requirement raises, as does a term with one list only. *)
Theorem NodeSelectorTerm_returns_only_for_empty_lists
    (t : NodeSelectorTerm.t) (v : value) :
  NodeSelectorTerm.get_spec t = Ok v →
  (t = NodeSelectorTerm.mk None None ∧ v = VNone) ∨
  (t = NodeSelectorTerm.mk (Some []) (Some []) ∧
   v = VModel Sdk.NodeSelectorTerm
         [("match_expressions", VList []); ("match_fields", VList [])]).
Proof. apply NodeSelectorTerm_Ok_inv. Qed.

Lemma NodeSelectorTerm_returns_only_for_empty_lists_witness :
  (empty_term = NodeSelectorTerm.mk None None ∧ empty_term_spec = VNone) ∨
  (empty_term = NodeSelectorTerm.mk (Some []) (Some []) ∧
   empty_term_spec
   = VModel Sdk.NodeSelectorTerm
       [("match_expressions", VList []); ("match_fields", VList [])]).
Proof.
  apply (NodeSelectorTerm_returns_only_for_empty_lists empty_term
           empty_term_spec).
  reflexivity.
Defined.

(** X7.  [PreferredSchedulingTerm.get_spec] raises for every preferred
    term: when its terms materialize it wraps them in an [ArgoNodeSelector]
    and passes that as the preference, where [ArgoPreferredSchedulingTerm]
    takes a node selector term. *)
Theorem PreferredSchedulingTerm_always_raises (t : PreferredSchedulingTerm.t) :
  ∃ e, PreferredSchedulingTerm.get_spec t = Raise e.
Proof.
  pose proof (PreferredSchedulingTerm_raises t) as H.
  destruct (PreferredSchedulingTerm.get_spec t) as [v|e]; [discriminate|].
  by exists e.
Qed.

(** X5.  [NodeAffinity.get_spec] returns a record for no node affinity: it
    returns only for the node whose two attributes are [None], and then
    absent.  A preferred term raises, and without one [None] is passed as
    the preferred list. *)
Theorem NodeAffinity_returns_only_absent (a : NodeAffinity.t) (v : value) :
  NodeAffinity.get_spec a = Ok v →
  v = VNone ∧
  NodeAffinity.preferred_during_scheduling_ignored_during_execution a = None ∧
  NodeAffinity.required_during_scheduling_ignored_during_execution a = None.
Proof. apply NodeAffinity_Ok_inv. Qed.

Lemma NodeAffinity_returns_only_absent_witness :
  VNone = VNone ∧
  (None : option (list PreferredSchedulingTerm.t)) = None ∧
  (None : option NodeSelectorTerm.t) = None.
Proof.
  apply (NodeAffinity_returns_only_absent (NodeAffinity.mk None None) VNone).
  reflexivity.
Defined.

(** X2.  [Affinity.get_spec] returns exactly for the node whose three
    categories are [None], and then absent; for every other tree it
    raises.  A category that is [None] or materializes to absent is passed
    as [None] to [ArgoAffinity], and a node affinity never materializes to
    a record. *)
Theorem Affinity_returns_only_absent (a : Affinity.t) (v : value) :
  Affinity.get_spec a = Ok v →
  v = VNone ∧ Affinity.pod_affinity a = None ∧
  Affinity.pod_anti_affinity a = None ∧ Affinity.node_affinity a = None.
Proof. apply Affinity_Ok_inv. Qed.

Lemma Affinity_returns_only_absent_witness :
  VNone = VNone ∧ (None : option PodAffinity.t) = None ∧
  (None : option PodAntiAffinity.t) = None ∧
  (None : option NodeAffinity.t) = None.
Proof.
  apply (Affinity_returns_only_absent (Affinity.mk None None None) VNone).
  reflexivity.
Defined.

(** ** What the records hold *)

Lemma comprehension_Ok_inv {A B : Type} (f : A → result B) x k :
  comprehension f x = Ok k →
  ∃ l, x = Some l ∧ Forall2 (λ a b, f a = Ok b) l k.
Proof.
  destruct x as [l|]; unfold comprehension; simpl; [|discriminate].
  intros H. exists l. split; [reflexivity|]. by apply mapM_Ok_Forall2.
Qed.

(** X3.  [PodAffinity.get_spec] returns a record only when both attributes
    are lists; the two lists of the record then have the lengths of the
    attributes and hold, position by position and in the same order, what
    [get_spec] returns for the term at that position. *)
Theorem PodAffinity_lists_termwise (a : PodAffinity.t) (v : value) :
  PodAffinity.get_spec a = Ok v →
  (v = VNone ∧
   PodAffinity.preferred_during_scheduling_ignored_during_execution a = None ∧
   PodAffinity.required_during_scheduling_ignored_during_execution a = None) ∨
  (∃ ts us ps rs,
     PodAffinity.preferred_during_scheduling_ignored_during_execution a
       = Some ts ∧
     PodAffinity.required_during_scheduling_ignored_during_execution a
       = Some us ∧
     Forall2 (λ t w, WeightedPodAffinityTerm.get_spec t = Ok w) ts ps ∧
     Forall2 (λ t w, PodAffinityTerm.get_spec t = Ok w) us rs ∧
     v = VModel Sdk.PodAffinity
           [("preferred_during_scheduling_ignored_during_execution", VList ps);
            ("required_during_scheduling_ignored_during_execution", VList rs)]).
Proof.
  destruct a as [[ts|] [us|]]; unfold PodAffinity.get_spec; cbn -[mbind];
    intros H.
  - right. apply bind_Ok_inv in H as (p & Hp & H).
    apply bind_Ok_inv in H as (q & Hq & H).
    apply bind_Ok_inv in Hp as (ps & Hps & Hp). injection Hp as <-.
    apply bind_Ok_inv in Hq as (rs & Hrs & Hq). injection Hq as <-.
    apply comprehension_Ok_inv in Hps as (ts' & Hts & Hps).
    apply comprehension_Ok_inv in Hrs as (us' & Hus & Hrs).
    injection Hts as <-. injection Hus as <-.
    unfold ArgoPodAffinity.new in H. apply checked_Ok_inv in H as [-> _].
    by exists ts, us, ps, rs.
  - apply bind_Ok_inv in H as (p & _ & H). simpl in H.
    unfold ArgoPodAffinity.new in H. apply checked_Ok_inv in H as [_ Hv].
    inversion Hv as [|? ? _ Hv']; subst. inversion Hv' as [|? ? Hq _]; subst.
    discriminate.
  - simpl in H. apply bind_Ok_inv in H as (q & _ & H).
    unfold ArgoPodAffinity.new in H. apply checked_Ok_inv in H as [_ Hv].
    inversion Hv as [|? ? Hp _]; subst. discriminate.
  - left. by injection H as <-.
Qed.

Lemma PodAffinity_lists_termwise_witness :
  (full_pod_affinity_spec = VNone ∧
   Some [WeightedPodAffinityTerm.mk full_term 50] = None ∧
   Some [full_term] = None) ∨
  (∃ ts us ps rs,
     Some [WeightedPodAffinityTerm.mk full_term 50] = Some ts ∧
     Some [full_term] = Some us ∧
     Forall2 (λ t w, WeightedPodAffinityTerm.get_spec t = Ok w) ts ps ∧
     Forall2 (λ t w, PodAffinityTerm.get_spec t = Ok w) us rs ∧
     full_pod_affinity_spec
     = VModel Sdk.PodAffinity
         [("preferred_during_scheduling_ignored_during_execution", VList ps);
          ("required_during_scheduling_ignored_during_execution", VList rs)]).
Proof.
  apply (PodAffinity_lists_termwise full_pod_affinity full_pod_affinity_spec).
  reflexivity.
Defined.

(** X4.  [PodAntiAffinity.get_spec] does for its two lists what
    [PodAffinity.get_spec] does for the same two lists: the same exception,
    the same absence, the same two properties in the record. *)
Theorem PodAntiAffinity_as_PodAffinity
    (p : option (list WeightedPodAffinityTerm.t))
    (r : option (list PodAffinityTerm.t)) :
  PodAntiAffinity.get_spec (PodAntiAffinity.mk p r) =
  x ← PodAffinity.get_spec (PodAffinity.mk p r); Ok (anti x).
Proof.
  unfold PodAntiAffinity.get_spec, PodAffinity.get_spec, comprehension,
    ArgoPodAntiAffinity.new, ArgoPodAffinity.new, Sdk.checked.
  destruct p as [p|], r as [r|]; simpl; try reflexivity;
    repeat match goal with
           | |- context [mapM ?f ?l] => destruct (mapM f l); simpl
           end; try reflexivity;
    repeat match goal with
           | |- context [forallb ?f ?l] => destruct (forallb f l); simpl
           end; reflexivity.
Qed.

(** X9.  [PodAffinityTerm.get_spec] returns a record only when the two
    selectors and the namespaces are all given; the record then holds the
    topology key and the namespaces of the node, unchanged, and for each
    selector what [LabelSelector.get_spec] returns for it. *)
Theorem PodAffinityTerm_passes_through (t : PodAffinityTerm.t) (v : value) :
  PodAffinityTerm.get_spec t = Ok v →
  ∃ s1 s2 n v1 v2,
    PodAffinityTerm.label_selector t = Some s1 ∧
    PodAffinityTerm.namespace_selector t = Some s2 ∧
    PodAffinityTerm.namespaces t = Some n ∧
    LabelSelector.get_spec s1 = Ok v1 ∧
    LabelSelector.get_spec s2 = Ok v2 ∧
    v = VModel Sdk.PodAffinityTerm
          [("topology_key", VStr (PodAffinityTerm.topology_key t));
           ("label_selector", v1);
           ("namespace_selector", v2);
           ("namespaces", VList (VStr <$> n))].
Proof.
  destruct t as [k ls ns n]. unfold PodAffinityTerm.get_spec. cbn -[mbind].
  intros H. apply bind_Ok_inv in H as (v1 & H1 & H).
  apply bind_Ok_inv in H as (v2 & H2 & H).
  unfold ArgoPodAffinityTerm.new in H. apply checked_Ok_inv in H as [-> Hv].
  inversion Hv as [|? ? _ Hv1]; subst. inversion Hv1 as [|? ? V1 Hv2]; subst.
  inversion Hv2 as [|? ? V2 Hv3]; subst. inversion Hv3 as [|? ? V3 _]; subst.
  simpl in V1, V2, V3.
  destruct ls as [s1|]; simpl in H1; [|injection H1 as <-; discriminate].
  destruct ns as [s2|]; simpl in H2; [|injection H2 as <-; discriminate].
  destruct n as [n|]; [|discriminate].
  by exists s1, s2, n, v1, v2.
Qed.

Lemma PodAffinityTerm_passes_through_witness :
  ∃ s1 s2 n v1 v2,
    Some app_x_selector = Some s1 ∧
    Some app_x_selector = Some s2 ∧
    Some ["default"] = Some n ∧
    LabelSelector.get_spec s1 = Ok v1 ∧
    LabelSelector.get_spec s2 = Ok v2 ∧
    full_term_spec
    = VModel Sdk.PodAffinityTerm
        [("topology_key", VStr "kubernetes.io/hostname");
         ("label_selector", v1);
         ("namespace_selector", v2);
         ("namespaces", VList (VStr <$> n))].
Proof.
  apply (PodAffinityTerm_passes_through full_term full_term_spec).
  reflexivity.
Defined.

(** ** What the records determine *)

Lemma LabelOperator_value_inj (op op' : LabelOperator.t) :
  LabelOperator.value op = LabelOperator.value op' → op = op'.
Proof. destruct op, op'; simpl; intros H; (reflexivity || discriminate H). Qed.

Lemma VStr_fmap_inj (l l' : list string) : VStr <$> l = VStr <$> l' → l = l'.
Proof.
  revert l'. induction l as [|x l IH]; intros [|y l'] H;
    try discriminate; [reflexivity|].
  injection H as -> H. f_equal. by apply IH.
Qed.

(** X15.  [LabelSelectorRequirement.get_spec] loses nothing where it
    returns: two requirements with the same outcome are the same
    requirement (the four operators have four different strings), unless
    both are without values, where the outcome is the exception. *)
Theorem LabelSelectorRequirement_lossless (r r' : LabelSelectorRequirement.t) :
  LabelSelectorRequirement.get_spec r = LabelSelectorRequirement.get_spec r' →
  r = r' ∨
  (LabelSelectorRequirement.values r = None ∧
   LabelSelectorRequirement.values r' = None).
Proof.
  destruct r as [k op [v|]], r' as [k' op' [v'|]]; simpl;
    rewrite ?LabelSelectorRequirement_valued; intros H.
  - left. injection H as -> Hop Hv.
    apply LabelOperator_value_inj in Hop as ->.
    by apply VStr_fmap_inj in Hv as ->.
  - discriminate.
  - discriminate.
  - by right.
Qed.

Lemma LabelSelectorRequirement_lossless_witness :
  app_x = app_x ∨ (Some ["x"] = None ∧ Some ["x"] = None).
Proof.
  apply (LabelSelectorRequirement_lossless app_x app_x). reflexivity.
Defined.

(** ** The exceptions of [get_spec] *)

Lemma raises_only_Ok {A : Type} (a : A) : raises_only (Ok a).
Proof. intros e. discriminate. Qed.

Lemma raises_only_checked c kwargs : raises_only (Sdk.checked c kwargs).
Proof.
  unfold Sdk.checked. destruct (forallb _ kwargs); intros e H.
  - discriminate.
  - injection H as <-. auto.
Qed.

Lemma raises_only_bind {A B : Type} (m : result A) (f : A → result B) :
  raises_only m → (∀ a, raises_only (f a)) → raises_only (m ≫= f).
Proof.
  intros Hm Hf. destruct m as [a|e]; simpl; [apply Hf|].
  intros e' H. injection H as <-. by apply Hm.
Qed.

Lemma raises_only_mapM {A B : Type} (f : A → result B) l :
  (∀ a, raises_only (f a)) → raises_only (mapM f l).
Proof.
  intros Hf. induction l as [|x l IH]; cbn [mapM]; [apply raises_only_Ok|].
  apply raises_only_bind; [apply Hf|]. intros y.
  apply raises_only_bind; [apply IH|]. intros k. apply raises_only_Ok.
Qed.

Lemma raises_only_comprehension {A B : Type} (f : A → result B) x :
  (∀ a, raises_only (f a)) → raises_only (comprehension f x).
Proof.
  intros Hf. destruct x as [l|]; unfold comprehension; simpl.
  - by apply raises_only_mapM.
  - intros e H. injection H as <-. auto.
Qed.

(** A call guarded by a test on the receiver never meets [None]. *)
Lemma raises_only_guarded_call {A B : Type} (x : option A) (f : A → result B)
    (b : B) :
  (∀ a, raises_only (f a)) →
  raises_only (if is_not_None x then call x f else Ok b).
Proof. intros Hf. destruct x; simpl; [apply Hf | apply raises_only_Ok]. Qed.

Create HintDb raises.

Ltac raises_step :=
  first
    [ apply raises_only_Ok
    | apply raises_only_checked
    | apply raises_only_guarded_call; intros ?
    | apply (raises_only_guarded_call (B := value)); intros ?
    | apply raises_only_comprehension; intros ?
    | apply raises_only_mapM; intros ?
    | solve [auto with raises]
    | apply raises_only_bind; [|intros ?]
    | match goal with
      | |- raises_only (if ?c then _ else _) => destruct c
      end ].

Lemma raises_only_NodeSelectorRequirement r :
  raises_only (NodeSelectorRequirement.get_spec r).
Proof.
  destruct r as [[l|]]; intros e H; [|discriminate].
  injection H as <-. auto.
Qed.
#[local] Hint Resolve raises_only_NodeSelectorRequirement : raises.

Lemma raises_only_NodeSelectorTerm t : raises_only (NodeSelectorTerm.get_spec t).
Proof.
  unfold NodeSelectorTerm.get_spec, ArgoNodeSelectorTerm.new.
  repeat raises_step.
Qed.
#[local] Hint Resolve raises_only_NodeSelectorTerm : raises.

Lemma raises_only_PreferredSchedulingTerm t :
  raises_only (PreferredSchedulingTerm.get_spec t).
Proof.
  unfold PreferredSchedulingTerm.get_spec, ArgoNodeSelector.new,
    ArgoPreferredSchedulingTerm.new.
  repeat raises_step.
Qed.
#[local] Hint Resolve raises_only_PreferredSchedulingTerm : raises.

Lemma raises_only_LabelSelectorRequirement r :
  raises_only (LabelSelectorRequirement.get_spec r).
Proof.
  unfold LabelSelectorRequirement.get_spec, ArgoLabelSelectorRequirement.new.
  repeat raises_step.
Qed.
#[local] Hint Resolve raises_only_LabelSelectorRequirement : raises.

Lemma raises_only_LabelSelector s : raises_only (LabelSelector.get_spec s).
Proof.
  unfold LabelSelector.get_spec, ArgoLabelSelector.new. repeat raises_step.
Qed.
#[local] Hint Resolve raises_only_LabelSelector : raises.

Lemma raises_only_PodAffinityTerm t : raises_only (PodAffinityTerm.get_spec t).
Proof.
  unfold PodAffinityTerm.get_spec, ArgoPodAffinityTerm.new.
  repeat raises_step.
Qed.
#[local] Hint Resolve raises_only_PodAffinityTerm : raises.

Lemma raises_only_WeightedPodAffinityTerm t :
  raises_only (WeightedPodAffinityTerm.get_spec t).
Proof.
  unfold WeightedPodAffinityTerm.get_spec, ArgoWeightedPodAffinityTerm.new.
  repeat raises_step.
Qed.
#[local] Hint Resolve raises_only_WeightedPodAffinityTerm : raises.

Lemma raises_only_PodAffinity a : raises_only (PodAffinity.get_spec a).
Proof.
  unfold PodAffinity.get_spec, ArgoPodAffinity.new. repeat raises_step.
Qed.
#[local] Hint Resolve raises_only_PodAffinity : raises.

Lemma raises_only_PodAntiAffinity a : raises_only (PodAntiAffinity.get_spec a).
Proof.
  unfold PodAntiAffinity.get_spec, ArgoPodAntiAffinity.new. repeat raises_step.
Qed.
#[local] Hint Resolve raises_only_PodAntiAffinity : raises.

Lemma raises_only_NodeAffinity a : raises_only (NodeAffinity.get_spec a).
Proof.
  unfold NodeAffinity.get_spec, ArgoNodeAffinity.new.
  destruct a as [[p|] [r|]]; simpl; repeat raises_step.
Qed.
#[local] Hint Resolve raises_only_NodeAffinity : raises.

Lemma raises_only_Affinity a : raises_only (Affinity.get_spec a).
Proof.
  unfold Affinity.get_spec, ArgoAffinity.new.
  destruct a as [[pa|] [paa|] [na|]]; simpl; repeat raises_step.
Qed.

(** X1.  When [Affinity.get_spec] raises, on any tree, the exception is one
    of three: the [TypeError] of an iteration over [None], the [TypeError]
    of [ArgoNodeSelectorRequirement] called without its key and operator,
    or the [ApiTypeError] of an SDK constructor that rejects an argument.
    It is never an [AttributeError]: the calls of [get_spec] on an
    attribute are all guarded by a test of that attribute, so none is made
    on [None]. *)
Theorem Affinity_get_spec_exceptions (a : Affinity.t) (e : exn) :
  Affinity.get_spec a = Raise e →
  e = TypeError "'NoneType' object is not iterable" ∨
  e = MissingArguments ["key"; "operator"] ∨
  e = ApiTypeError.
Proof. apply raises_only_Affinity. Qed.

Lemma Affinity_get_spec_exceptions_witness :
  ApiTypeError = TypeError "'NoneType' object is not iterable" ∨
  ApiTypeError = MissingArguments ["key"; "operator"] ∨
  ApiTypeError = ApiTypeError.
Proof.
  apply (Affinity_get_spec_exceptions hollow_affinity ApiTypeError).
  reflexivity.
Defined.

(** ** The client and the links of the workflow service *)

Lemma string_app_cons (c : Ascii.ascii) (a b : string) :
  String c a +:+ b = String c (a +:+ b).
Proof. reflexivity. Qed.

Lemma substring_all (t : string) : String.substring 0 (String.length t) t = t.
Proof. induction t as [|c t IH]; simpl; [reflexivity | by rewrite IH]. Qed.

Lemma substring_after_prefix (p t : string) :
  String.substring (String.length p) (String.length t) (p +:+ t) = t.
Proof.
  induction p as [|c p IH]; [apply substring_all|].
  rewrite string_app_cons. exact IH.
Qed.

Lemma string_app_assoc (a b c : string) : (a +:+ b) +:+ c = a +:+ (b +:+ c).
Proof.
  induction a as [|x a IH]; [reflexivity|].
  rewrite !string_app_cons, IH. reflexivity.
Qed.

Lemma string_length_app (a b : string) :
  String.length (a +:+ b) = (String.length a + String.length b)%nat.
Proof.
  induction a as [|x a IH]; [reflexivity|].
  rewrite string_app_cons. simpl. by rewrite IH.
Qed.

Lemma string_app_inj_l (a b s : string) : a +:+ s = b +:+ s → a = b.
Proof.
  revert b. induction a as [|x a IH]; intros [|y b] H.
  - reflexivity.
  - apply (f_equal String.length) in H.
    rewrite !string_length_app in H. simpl in H. lia.
  - apply (f_equal String.length) in H.
    rewrite !string_length_app in H. simpl in H. lia.
  - rewrite !string_app_cons in H. injection H as -> H. f_equal. by apply IH.
Qed.

Section ServiceFacts.
Context {Configuration : Type}.
Variable Config : string → Configuration.

(** X10.  The SDK client of a service built by [WorkflowService.__init__] is
    the one [Client.__init__] builds from the configuration of the domain
    and the token: its header is [Authorization], and the token is read back
    from the header value after the seven characters of ["Bearer "]. *)
Theorem service_client_token
    (domain token : string) (namespace : option string) :
  let client :=
    WorkflowService.api_client
      (WorkflowService.service
         (WorkflowService.__init__ Config domain token namespace)) in
  client = Client.api_client (Client.__init__ (Config domain) token) ∧
  Client.configuration client = Config domain ∧
  Client.header_name client = "Authorization" ∧
  String.substring 7 (String.length token) (Client.header_value client)
  = token.
Proof.
  simpl. split_and!; try reflexivity.
  apply (substring_after_prefix "Bearer " token).
Qed.

(** X11.  For one service, [get_workflow_link] gives different links for
    different workflow names. *)
Theorem workflow_link_determines_name
    (svc : WorkflowService.t (Configuration := Configuration))
    (name name' : string) :
  WorkflowService.get_workflow_link svc name
  = WorkflowService.get_workflow_link svc name' →
  name = name'.
Proof.
  unfold WorkflowService.get_workflow_link. intros H.
  repeat apply String.app_inj in H.
  by apply string_app_inj_l in H.
Qed.

(** X12.  [get_workflow_link] puts the namespace and the name in the link as
    they are, with a slash between them: the link of the workflow [name] in
    the namespace [ns/x] is the link of the workflow [x/name] in the
    namespace [ns]. *)
Theorem workflow_link_slash_ambiguity (domain token ns x name : string) :
  WorkflowService.get_workflow_link
    (WorkflowService.__init__ Config domain token (Some (ns +:+ "/" +:+ x)))
    name
  = WorkflowService.get_workflow_link
      (WorkflowService.__init__ Config domain token (Some ns))
      (x +:+ "/" +:+ name).
Proof.
  unfold WorkflowService.get_workflow_link. simpl.
  do 3 f_equal. rewrite !string_app_assoc. reflexivity.
Qed.
End ServiceFacts.

Lemma workflow_link_determines_name_witness : "hello" = "hello".
Proof.
  apply (workflow_link_determines_name
           (WorkflowService.__init__ (λ domain, domain) "argo.example" "t" None)).
  reflexivity.
Defined.

(** ** Constructors in the store *)

Lemma new_fresh (o : Store.obj) (h : Store.heap) :
  ∃ l, Store.new o h = (Ok l, <[l := o]> h) ∧ h !! l = None.
Proof.
  exists (fresh (dom h)). split; [reflexivity|].
  apply not_elem_of_dom, is_fresh.
Qed.

Lemma stable_mapM {A : Type} (abs : Store.heap → Store.loc → option A) h h' ls ts :
  stable abs → h ⊆ h' → mapM (abs h) ls = Some ts → mapM (abs h') ls = Some ts.
Proof.
  intros Habs Hh H. apply mapM_Some in H. apply mapM_Some.
  eapply Forall2_impl; [exact H|]. intros l t. by apply Habs.
Qed.

Lemma stable_opt {A : Type} (abs : Store.heap → Store.loc → option A) h h' v x :
  stable abs → h ⊆ h' →
  Abstraction.opt (abs h) v = Some x → Abstraction.opt (abs h') v = Some x.
Proof.
  intros Habs Hh. destruct v as [l|]; simpl; [|done].
  destruct (abs h l) as [t|] eqn:E; [|discriminate].
  by rewrite (Habs _ _ _ _ Hh E).
Qed.

Lemma stable_opt_list {A : Type} (abs : Store.heap → Store.loc → option A) h h' v x :
  stable abs → h ⊆ h' →
  Abstraction.opt_list (abs h) v = Some x →
  Abstraction.opt_list (abs h') v = Some x.
Proof.
  intros Habs Hh. destruct v as [ls|]; simpl; [|done].
  destruct (mapM (abs h) ls) as [ts|] eqn:E; [|discriminate].
  by rewrite (stable_mapM _ _ _ _ _ Habs Hh E).
Qed.

Ltac stable_class :=
  intros h h' l t Hh H;
  match type of H with
  | context [h !! l] =>
      destruct (h !! l) as [[]|] eqn:E; try discriminate;
      rewrite (lookup_weaken _ _ _ _ E Hh)
  end;
  simplify_option_eq.

Create HintDb stable.

Ltac stable_children :=
  repeat first
    [ erewrite stable_opt_list by eauto with stable
    | erewrite stable_opt by eauto with stable
    | erewrite stable_mapM by eauto with stable ];
  done.

Lemma stable_node_selector_requirement :
  stable Abstraction.node_selector_requirement.
Proof. unfold Abstraction.node_selector_requirement. stable_class. done. Qed.
#[local] Hint Resolve stable_node_selector_requirement : stable.

Lemma stable_node_selector_term : stable Abstraction.node_selector_term.
Proof. unfold Abstraction.node_selector_term. stable_class. stable_children. Qed.
#[local] Hint Resolve stable_node_selector_term : stable.

Lemma stable_preferred_scheduling_term :
  stable Abstraction.preferred_scheduling_term.
Proof.
  unfold Abstraction.preferred_scheduling_term. stable_class. stable_children.
Qed.
#[local] Hint Resolve stable_preferred_scheduling_term : stable.

Lemma stable_label_selector_requirement :
  stable Abstraction.label_selector_requirement.
Proof. unfold Abstraction.label_selector_requirement. stable_class. done. Qed.
#[local] Hint Resolve stable_label_selector_requirement : stable.

Lemma stable_label_selector : stable Abstraction.label_selector.
Proof. unfold Abstraction.label_selector. stable_class. stable_children. Qed.
#[local] Hint Resolve stable_label_selector : stable.

Lemma stable_pod_affinity_term : stable Abstraction.pod_affinity_term.
Proof. unfold Abstraction.pod_affinity_term. stable_class. stable_children. Qed.
#[local] Hint Resolve stable_pod_affinity_term : stable.

Lemma stable_weighted_pod_affinity_term :
  stable Abstraction.weighted_pod_affinity_term.
Proof.
  unfold Abstraction.weighted_pod_affinity_term. stable_class.
  by erewrite stable_pod_affinity_term by eassumption.
Qed.
#[local] Hint Resolve stable_weighted_pod_affinity_term : stable.

Lemma stable_pod_affinity : stable Abstraction.pod_affinity.
Proof. unfold Abstraction.pod_affinity. stable_class. stable_children. Qed.
#[local] Hint Resolve stable_pod_affinity : stable.

Lemma stable_pod_anti_affinity : stable Abstraction.pod_anti_affinity.
Proof. unfold Abstraction.pod_anti_affinity. stable_class. stable_children. Qed.
#[local] Hint Resolve stable_pod_anti_affinity : stable.

Lemma stable_node_affinity : stable Abstraction.node_affinity.
Proof. unfold Abstraction.node_affinity. stable_class. stable_children. Qed.
#[local] Hint Resolve stable_node_affinity : stable.

Lemma stable_affinity : stable Abstraction.affinity.
Proof. unfold Abstraction.affinity. stable_class. stable_children. Qed.
#[local] Hint Resolve stable_affinity : stable.

Lemma run_bind {A B : Type} (m : Store.M A) (f : A → Store.M B) h a h' :
  m h = (Ok a, h') → (m ≫= f) h = f a h'.
Proof. intros E. unfold mbind, Store.M_bind. by rewrite E. Qed.

Lemma constructs_mapM {A : Type} (b : A → Store.M Store.loc)
    (abs : Store.heap → Store.loc → option A) :
  constructs b abs → stable abs →
  constructs (mapM b) (λ h ls, mapM (abs h) ls).
Proof.
  intros Hb Habs ts. induction ts as [|t ts IH]; intros h.
  - exists [], h. done.
  - destruct (Hb t h) as (l & h1 & E1 & S1 & A1).
    destruct (IH h1) as (ls & h2 & E2 & S2 & A2).
    exists (l :: ls), h2. split_and!.
    + cbn [mapM]. rewrite (run_bind _ _ _ _ _ E1), (run_bind _ _ _ _ _ E2).
      reflexivity.
    + by etrans.
    + cbn [mapM]. rewrite (Habs _ _ _ _ S2 A1). simpl. by rewrite A2.
Qed.

Lemma constructs_opt {A : Type} (b : A → Store.M Store.loc)
    (abs : Store.heap → Store.loc → option A) :
  constructs b abs →
  constructs (Build.opt b) (λ h v, Abstraction.opt (abs h) v).
Proof.
  intros Hb [t|] h; simpl.
  - destruct (Hb t h) as (l & h1 & E1 & S1 & A1).
    exists (Some l), h1. rewrite (run_bind _ _ _ _ _ E1). simpl.
    by rewrite A1.
  - exists None, h. done.
Qed.

Lemma constructs_opt_list {A : Type} (b : A → Store.M Store.loc)
    (abs : Store.heap → Store.loc → option A) :
  constructs b abs → stable abs →
  constructs (Build.opt_list b) (λ h v, Abstraction.opt_list (abs h) v).
Proof.
  intros Hb Habs [ts|] h; simpl.
  - destruct (constructs_mapM b abs Hb Habs ts h) as (ls & h1 & E1 & S1 & A1).
    exists (Some ls), h1. rewrite (run_bind _ _ _ _ _ E1). simpl.
    by rewrite A1.
  - exists None, h. done.
Qed.

(** The object allocated last, and what was there before it. *)
Lemma constructs_new {A : Type} (abs : Store.heap → Store.loc → option A)
    (o : Store.obj) (t : A) (h0 h : Store.heap) :
  h0 ⊆ h →
  (∀ l, h !! l = None → abs (<[l := o]> h) l = Some t) →
  ∃ l h', Store.new o h = (Ok l, h') ∧ h0 ⊆ h' ∧ abs h' l = Some t.
Proof.
  intros Hh Habs. destruct (new_fresh o h) as (l & E & Hl).
  exists l, (<[l := o]> h). split_and!; [exact E | | by apply Habs].
  etrans; [exact Hh|]. by apply insert_subseteq.
Qed.

Ltac chain := solve [ eassumption | reflexivity | etrans; [eassumption | chain] ].

(** A child built in an earlier store is still there in the store [h']. *)
Ltac lift A h' :=
  first
    [ eapply (stable_opt_list _ _ h') in A; [|eauto with stable | chain]
    | eapply (stable_opt _ _ h') in A; [|eauto with stable | chain]
    | eapply (stable_mapM _ _ h') in A; [|eauto with stable | chain]
    | eapply (stable_pod_affinity_term _ h') in A; [|chain] ].

(** The children are built, the object is allocated. *)
Ltac allocate l S :=
  apply constructs_new; [chain|]; intros l ?;
  match goal with
  | |- _ (<[l := ?o]> ?h) l = _ =>
      assert (h ⊆ <[l := o]> h) as S by (by apply insert_subseteq)
  end.

Lemma constructs_node_selector_requirement :
  constructs Build.node_selector_requirement Abstraction.node_selector_requirement.
Proof.
  intros [v] h. apply constructs_new; [done|]. intros l Hl.
  unfold Abstraction.node_selector_requirement. by rewrite lookup_insert_eq.
Qed.

Lemma constructs_node_selector_term :
  constructs Build.node_selector_term Abstraction.node_selector_term.
Proof.
  intros [es fs] h. unfold Build.node_selector_term. simpl.
  destruct (constructs_opt_list _ _ constructs_node_selector_requirement
              stable_node_selector_requirement es h) as (es' & h1 & E1 & S1 & A1).
  destruct (constructs_opt_list _ _ constructs_node_selector_requirement
              stable_node_selector_requirement fs h1) as (fs' & h2 & E2 & S2 & A2).
  rewrite (run_bind _ _ _ _ _ E1), (run_bind _ _ _ _ _ E2).
  allocate l S3. lift A1 (<[l := Store.NodeSelectorTerm_obj es' fs']> h2).
  lift A2 (<[l := Store.NodeSelectorTerm_obj es' fs']> h2).
  unfold Abstraction.node_selector_term. rewrite lookup_insert_eq, A1. simpl.
  by rewrite A2.
Qed.

(** Building one child: what it returns, the store it leaves, its tree. *)
Ltac child lem x h v h' E S A :=
  destruct (lem x h) as (v & h' & E & S & A);
  rewrite (run_bind _ _ _ _ _ E).

Ltac lift2 A1 A2 :=
  match goal with |- _ ?h' _ = _ => lift A1 h'; lift A2 h' end.

Ltac lift3 A1 A2 A3 :=
  match goal with |- _ ?h' _ = _ => lift A1 h'; lift A2 h'; lift A3 h' end.

Lemma constructs_preferred_scheduling_term :
  constructs Build.preferred_scheduling_term Abstraction.preferred_scheduling_term.
Proof.
  intros [ts w] h. unfold Build.preferred_scheduling_term. simpl.
  child (constructs_mapM _ _ constructs_node_selector_term
           stable_node_selector_term) ts h ts' h1 E1 S1 A1.
  allocate l S2.
  match goal with |- _ ?h' _ = _ => lift A1 h' end.
  unfold Abstraction.preferred_scheduling_term.
  rewrite lookup_insert_eq, A1. done.
Qed.

Lemma constructs_label_selector_requirement :
  constructs Build.label_selector_requirement
    Abstraction.label_selector_requirement.
Proof.
  intros [k op v] h. apply constructs_new; [done|]. intros l Hl.
  unfold Abstraction.label_selector_requirement. by rewrite lookup_insert_eq.
Qed.

Lemma constructs_label_selector :
  constructs Build.label_selector Abstraction.label_selector.
Proof.
  intros [es ml] h. unfold Build.label_selector. simpl.
  child (constructs_opt_list _ _ constructs_label_selector_requirement
           stable_label_selector_requirement) es h es' h1 E1 S1 A1.
  allocate l S2.
  match goal with |- _ ?h' _ = _ => lift A1 h' end.
  unfold Abstraction.label_selector. rewrite lookup_insert_eq, A1. done.
Qed.

Lemma constructs_pod_affinity_term :
  constructs Build.pod_affinity_term Abstraction.pod_affinity_term.
Proof.
  intros [k ls ns n] h. unfold Build.pod_affinity_term. simpl.
  child (constructs_opt _ _ constructs_label_selector) ls h ls' h1 E1 S1 A1.
  child (constructs_opt _ _ constructs_label_selector) ns h1 ns' h2 E2 S2 A2.
  allocate l S3. lift2 A1 A2.
  unfold Abstraction.pod_affinity_term. rewrite lookup_insert_eq, A1. simpl.
  by rewrite A2.
Qed.

Lemma constructs_weighted_pod_affinity_term :
  constructs Build.weighted_pod_affinity_term
    Abstraction.weighted_pod_affinity_term.
Proof.
  intros [t w] h. unfold Build.weighted_pod_affinity_term. simpl.
  child constructs_pod_affinity_term t h t' h1 E1 S1 A1.
  allocate l S2.
  match goal with |- _ ?h' _ = _ => lift A1 h' end.
  unfold Abstraction.weighted_pod_affinity_term.
  rewrite lookup_insert_eq, A1. done.
Qed.

Lemma constructs_pod_affinity :
  constructs Build.pod_affinity Abstraction.pod_affinity.
Proof.
  intros [p r] h. unfold Build.pod_affinity. simpl.
  child (constructs_opt_list _ _ constructs_weighted_pod_affinity_term
           stable_weighted_pod_affinity_term) p h p' h1 E1 S1 A1.
  child (constructs_opt_list _ _ constructs_pod_affinity_term
           stable_pod_affinity_term) r h1 r' h2 E2 S2 A2.
  allocate l S3. lift2 A1 A2.
  unfold Abstraction.pod_affinity. rewrite lookup_insert_eq, A1. simpl.
  by rewrite A2.
Qed.

Lemma constructs_pod_anti_affinity :
  constructs Build.pod_anti_affinity Abstraction.pod_anti_affinity.
Proof.
  intros [p r] h. unfold Build.pod_anti_affinity. simpl.
  child (constructs_opt_list _ _ constructs_weighted_pod_affinity_term
           stable_weighted_pod_affinity_term) p h p' h1 E1 S1 A1.
  child (constructs_opt_list _ _ constructs_pod_affinity_term
           stable_pod_affinity_term) r h1 r' h2 E2 S2 A2.
  allocate l S3. lift2 A1 A2.
  unfold Abstraction.pod_anti_affinity. rewrite lookup_insert_eq, A1. simpl.
  by rewrite A2.
Qed.

Lemma constructs_node_affinity :
  constructs Build.node_affinity Abstraction.node_affinity.
Proof.
  intros [p r] h. unfold Build.node_affinity. simpl.
  child (constructs_opt_list _ _ constructs_preferred_scheduling_term
           stable_preferred_scheduling_term) p h p' h1 E1 S1 A1.
  child (constructs_opt _ _ constructs_node_selector_term) r h1 r' h2 E2 S2 A2.
  allocate l S3. lift2 A1 A2.
  unfold Abstraction.node_affinity. rewrite lookup_insert_eq, A1. simpl.
  by rewrite A2.
Qed.

Lemma constructs_affinity : constructs Build.affinity Abstraction.affinity.
Proof.
  intros [pa paa na] h. unfold Build.affinity. simpl.
  child (constructs_opt _ _ constructs_pod_affinity) pa h pa' h1 E1 S1 A1.
  child (constructs_opt _ _ constructs_pod_anti_affinity) paa h1 paa' h2 E2 S2 A2.
  child (constructs_opt _ _ constructs_node_affinity) na h2 na' h3 E3 S3 A3.
  allocate l S4. lift3 A1 A2 A3.
  unfold Abstraction.affinity. rewrite lookup_insert_eq, A1. simpl.
  rewrite A2. simpl. by rewrite A3.
Qed.

(** X13.  Constructing a tree in any store returns an address, leaves every
    object that was in the store as it was, and leaves a store that holds
    the tree at that address; any number of invocations of [get_spec] on
    the constructed root then give what [Affinity.get_spec] gives for the
    tree, and leave the store as it is. *)
Theorem constructed_tree_materializes
    (t : Affinity.t) (h : Store.heap) (n : nat) :
  ∃ l h',
    Build.affinity t h = (Ok l, h') ∧
    h ⊆ h' ∧
    Abstraction.affinity h' l = Some t ∧
    Store.outcomes n (Store.Affinity.get_spec l) h'
    = (replicate n (Affinity.get_spec t), h').
Proof.
  destruct (constructs_affinity t h) as (l & h' & E & S & A).
  exists l, h'. split_and!; [exact E | exact S | exact A |].
  by apply Affinity_outcomes.
Qed.

Lemma PodAffinity_outcomes h l t n :
  Abstraction.pod_affinity h l = Some t →
  Store.outcomes n (Store.PodAffinity.get_spec l) h
  = (replicate n (PodAffinity.get_spec t), h).
Proof.
  intros Ht. rewrite outcomes_reads by apply reads_PodAffinity.
  rewrite (refines_PodAffinity _ _ _ Ht). reflexivity.
Qed.

(** X19.  The same for a pod affinity, whose [get_spec] returns records:
    constructing the tree of a pod affinity in any store returns an
    address, keeps the objects of the store and leaves a store that holds
    the tree at that address; any number of invocations of [get_spec] on
    the constructed object then give what [PodAffinity.get_spec] gives for
    the tree, and leave the store as it is. *)
Theorem constructed_pod_affinity_materializes
    (t : PodAffinity.t) (h : Store.heap) (n : nat) :
  ∃ l h',
    Build.pod_affinity t h = (Ok l, h') ∧
    h ⊆ h' ∧
    Abstraction.pod_affinity h' l = Some t ∧
    Store.outcomes n (Store.PodAffinity.get_spec l) h'
    = (replicate n (PodAffinity.get_spec t), h').
Proof.
  destruct (constructs_pod_affinity t h) as (l & h' & E & S & A).
  exists l, h'. split_and!; [exact E | exact S | exact A |].
  by apply PodAffinity_outcomes.
Qed.

(** The objects of [full_pod_affinity], built in the empty store: two
    invocations of [get_spec] on the pod affinity return twice the record
    [full_pod_affinity_spec]. *)
Example construct_full_pod_affinity_outcomes :
  ∃ l h,
    Build.pod_affinity full_pod_affinity ∅ = (Ok l, h) ∧
    Store.outcomes 2 (Store.PodAffinity.get_spec l) h
    = ([Ok full_pod_affinity_spec; Ok full_pod_affinity_spec], h).
Proof.
  destruct (constructs_pod_affinity full_pod_affinity ∅)
    as (l & h & E & _ & A).
  exists l, h. split; [exact E|].
  rewrite (PodAffinity_outcomes _ _ _ 2 A). reflexivity.
Qed.

(** X14.  What [get_spec] returns depends on the tree below the object
    only: in two stores that hold the same tree, at whatever addresses and
    among whatever other objects, it returns the same, which is what
    [Affinity.get_spec] returns for the tree. *)
Theorem get_spec_depends_on_tree_only
    (h1 h2 : Store.heap) (l1 l2 : Store.loc) (t : Affinity.t) :
  Abstraction.affinity h1 l1 = Some t →
  Abstraction.affinity h2 l2 = Some t →
  (Store.Affinity.get_spec l1 h1).1 = Affinity.get_spec t ∧
  (Store.Affinity.get_spec l2 h2).1 = (Store.Affinity.get_spec l1 h1).1.
Proof.
  intros H1 H2.
  apply refines_Affinity in H1. apply refines_Affinity in H2.
  unfold refines in H1, H2. rewrite H1, H2. done.
Qed.

Lemma get_spec_depends_on_tree_only_witness :
  (Store.Affinity.get_spec 4%positive (Build.affinity zone_a_affinity ∅).2).1
  = Affinity.get_spec zone_a_affinity ∧
  (Store.Affinity.get_spec 8%positive
     (Build.affinity zone_a_affinity (construct_zone_a ∅).2).2).1
  = (Store.Affinity.get_spec 4%positive
       (Build.affinity zone_a_affinity ∅).2).1.
Proof.
  apply (get_spec_depends_on_tree_only _ _ _ _ zone_a_affinity);
    vm_compute; reflexivity.
Defined.

